(** * travel-planner-agent: the diagnostics script and the planner UI

    A shallow embedding of [debug_ai.py] and of [streamlit_app.py],
    with the properties of their specification.

    Both programs are straight-line scripts that talk to collaborators
    which are imported, not implemented, in the repository (the agent
    framework, the travel backend, the UI toolkit).  A run is modelled
    as the ordered trace of what the script does to them (lines
    printed, widgets drawn, entry points called) together with its
    outcome, a value or a raised exception; what a collaborator answers
    is an input of the run. *)

From Stdlib Require Import String Ascii List Bool Arith Lia DecimalString.
Import ListNotations.

Open Scope string_scope.
Open Scope nat_scope.

(** ** Python strings *)

(** A [str] is represented by its UTF-8 encoding, one [ascii] per byte,
    so that the literals of the source, some of which hold symbols
    outside ASCII, are written as they are.  A character is a byte
    that is not a continuation byte ([10xxxxxx]) followed by its
    continuation bytes. *)
Module PyStr.

Definition is_continuation (c : ascii) : bool :=
  match c with
  | Ascii _ _ _ _ _ _ b6 b7 => b7 && negb b6
  end.

(** [len(s)]: the number of characters. *)
Fixpoint len (s : string) : nat :=
  match s with
  | EmptyString => 0
  | String c s' => (if is_continuation c then 0 else 1) + len s'
  end.

(** [bool(s)], as in [if s:] and [not s]: only the empty string is falsy. *)
Definition truthy (s : string) : bool :=
  match s with
  | EmptyString => false
  | String _ _ => true
  end.

(** [s.startswith(p)]. *)
Fixpoint starts_with (p s : string) : bool :=
  match p, s with
  | EmptyString, _ => true
  | String _ _, EmptyString => false
  | String a p', String b s' => Ascii.eqb a b && starts_with p' s'
  end.

(** [sub in s]: [sub] occurs in [s] at some position. *)
Fixpoint contains (sub s : string) : bool :=
  starts_with sub s ||
  match s with
  | EmptyString => false
  | String _ s' => contains sub s'
  end.

(** [s[:n]]: the first [n] characters (all of [s] when it has fewer). *)
Fixpoint take (n : nat) (s : string) : string :=
  match s with
  | EmptyString => EmptyString
  | String c s' =>
      if is_continuation c then String c (take n s')
      else match n with
           | 0 => EmptyString
           | S n' => String c (take n' s')
           end
  end.

(** [str(n)] for a natural number: its decimal digits. *)
Definition of_nat (n : nat) : string :=
  NilEmpty.string_of_uint (Nat.to_uint n).

(** The line feed of an escape [\n] in a literal. *)
Definition nl : string := String "010"%char EmptyString.

End PyStr.

(** ** Scripts: traces and exceptions *)

(** An exception as the scripts use it: [str(e)] and [type(e).__name__].
    Only instances of [Exception], the class both handlers name, are
    modelled. *)
Record exn : Type := Exn { exn_type : string; exn_str : string }.

Inductive result (A : Type) : Type :=
| Ok (a : A)
| Raise (e : exn).
Arguments Ok {A} a.
Arguments Raise {A} e.

(** A computation emits a trace of events of type [E] and ends with a
    value or a raised exception. *)
Module Script.

Definition M (E A : Type) : Type := (list E * result A)%type.

Definition ret {E A} (a : A) : M E A := ([], Ok a).

Definition bind {E A B} (m : M E A) (k : A -> M E B) : M E B :=
  match m with
  | (t, Ok a) => let (t', r) := k a in ((t ++ t')%list, r)
  | (t, Raise e) => (t, Raise e)
  end.

Definition emit {E} (ev : E) : M E unit := ([ev], Ok tt).

Definition raise {E A} (e : exn) : M E A := ([], Raise e).

(** [try: m  except Exception as e: h e]. *)
Definition try_except {E A} (m : M E A) (h : exn -> M E A) : M E A :=
  match m with
  | (t, Ok a) => (t, Ok a)
  | (t, Raise e) => let (t', r) := h e in ((t ++ t')%list, r)
  end.

(** The answer of a collaborator, turned into a step of the script. *)
Definition lift {E A} (r : result A) : M E A := ([], r).

Definition trace {E A} (m : M E A) : list E := fst m.
Definition outcome {E A} (m : M E A) : result A := snd m.

(** [for i, x in enumerate(xs): body i x], counting from [i]. *)
Fixpoint for_enumerate {E A} (i : nat) (xs : list A)
    (body : nat -> A -> M E unit) : M E unit :=
  match xs with
  | [] => ret tt
  | x :: xs' => bind (body i x) (fun _ => for_enumerate (S i) xs' body)
  end.

(** The trace of such a loop whose body [body i x] emits [f i x] and
    returns. *)
Fixpoint unroll {E A} (f : nat -> A -> list E) (i : nat) (xs : list A) : list E :=
  match xs with
  | [] => []
  | x :: xs' => (f i x ++ unroll f (S i) xs')%list
  end.

End Script.

Declare Scope script_scope.
Delimit Scope script_scope with script.
Notation "x <- m ;; k" := (Script.bind m (fun x => k))
  (at level 61, m at next level, right associativity) : script_scope.
Notation "m ;; k" := (Script.bind m (fun _ => k))
  (at level 61, right associativity) : script_scope.

(** ** The diagnostics script, [debug_ai.py] *)

Module DebugAI.
Import Script.
Local Open Scope script_scope.

(** What the script does, in order: lines printed, [sys.exit], and the
    calls into the agent framework. *)
Inductive event : Type :=
| Prints (line : string)
| Exit (code : nat)
| LLM (model : string) (api_key : option string)
| Agent (role goal backstory : string)
| Task (description expected_output : string)
| Crew
| Kickoff.

(** What the surroundings of one run answer.  The framework's objects
    are opaque to the script: all it observes of a constructor is
    whether it raises, and of [crew.kickoff()] the text of the result. *)
Record World : Type := {
  (** [os.getenv("GOOGLE_API_KEY")] after [load_dotenv(override=True)] *)
  getenv_GOOGLE_API_KEY : option string;
  (** [Some e] when [from crewai import ...] raises the ImportError [e] *)
  import_crewai : option exn;
  new_LLM : string -> option string -> result unit;
  new_Agent : result unit;
  new_Task : result unit;
  new_Crew : result unit;
  kickoff : result string
}.

Definition print (line : string) : M event unit := emit (Prints line).

Definition placeholder : string := "your_google_api_key_here".
Definition min_length : nat := 30.

(** The four things the script can say about the key. *)
Definition msg_not_found : string :=
  "ERROR: GOOGLE_API_KEY not found in environment or .env file".
Definition msg_is_set (api_key : string) : string :=
  "API Key is set (Length: " ++ PyStr.of_nat (PyStr.len api_key) ++ ")".
Definition msg_placeholder : string :=
  "CRITICAL ERROR: API Key appears to be the PLACEHOLDER string!".
Definition msg_too_short (api_key : string) : string :=
  "WARNING: API Key seems too short (" ++ PyStr.of_nat (PyStr.len api_key)
  ++ " chars). Real keys are usually longer.".
Definition msg_value (api_key : string) : string := "Value: " ++ api_key.
Definition msg_valid_format (api_key : string) : string :=
  "API Key seems valid format (starts with: " ++ PyStr.take 6 api_key ++ "...)".

(** Lines 15 to 27.  [not api_key] holds for [None] and for the empty
    string. *)
Definition check_api_key (api_key : option string) : M event unit :=
  print "Checking API Key configuration...";;
  match api_key with
  | None => print msg_not_found
  | Some key =>
      if negb (PyStr.truthy key) then print msg_not_found
      else
        print (msg_is_set key);;
        if PyStr.contains placeholder key then print msg_placeholder
        else if PyStr.len key <? min_length then
          print (msg_too_short key);;
          print (msg_value key)
        else print (msg_valid_format key)
  end.

Definition model_name : string := "gemini/gemini-1.5-flash".

(** Lines 29 to 65. *)
Definition test_connection (W : World) (api_key : option string) : M event unit :=
  print (PyStr.nl ++ "Testing CrewAI / Gemini Connection...");;
  try_except
    (print ("Initializing LLM with model: " ++ model_name);;
     emit (LLM model_name api_key);;
     lift (new_LLM W model_name api_key);;
     emit (Agent "Test Agent" "Verify API connection" "I am a test agent.");;
     lift (new_Agent W);;
     emit (Task "Reply with exactly three words: 'Connection is working'."
                "A simple confirmation phrase.");;
     lift (new_Task W);;
     emit Crew;;
     lift (new_Crew W);;
     print "Starting Crew execution...";;
     emit Kickoff;;
     answer <- lift (kickoff W);;
     print (PyStr.nl ++ "SUCCESS! Result from AI: " ++ answer))
    (fun e =>
       print (PyStr.nl ++ "FAILURE! Error details:");;
       print (exn_str e);;
       print ("Error Type: " ++ exn_type e)).

(** The whole script. *)
Definition main (W : World) : M event unit :=
  match import_crewai W with
  | Some e =>
      print ("ImportError: " ++ exn_str e);;
      emit (Exit 1)
  | None =>
      let api_key := getenv_GOOGLE_API_KEY W in
      check_api_key api_key;;
      test_connection W api_key
  end.

(** The key is absent: unset, or set to the empty string. *)
Definition absent (api_key : option string) : Prop :=
  api_key = None \/ api_key = Some EmptyString.

(** A run in which the framework imports and every call succeeds. *)
Definition world_ok (api_key : option string) : World := {|
  getenv_GOOGLE_API_KEY := api_key;
  import_crewai := None;
  new_LLM := fun _ _ => Ok tt;
  new_Agent := Ok tt;
  new_Task := Ok tt;
  new_Crew := Ok tt;
  kickoff := Ok "Connection is working"
|}.

(** Sample keys: one that holds the placeholder inside a longer text,
    a short one, and one of plausible length. *)
Definition key_around_placeholder : string := "your_google_api_key_here_0123456789".
Definition key_short : string := "short".
Definition key_plausible : string := "AIzaSy0123456789012345678901234567890".

End DebugAI.

(** ** The planner UI, [streamlit_app.py] *)

Module Planner.
Import Script.
Local Open Scope script_scope.

(** *** Data *)

(** A [datetime.date], the value of a [st.date_input]. *)
Record date : Type := Date { year : nat; month : nat; day : nat }.

Fixpoint zeros (n : nat) : string :=
  match n with
  | 0 => EmptyString
  | S n' => String "0"%char (zeros n')
  end.

Definition zero_pad (width n : nat) : string :=
  let digits := PyStr.of_nat n in
  zeros (width - String.length digits) ++ digits.

(** [str(d)]: the ISO form [YYYY-MM-DD]. *)
Definition str_date (d : date) : string :=
  zero_pad 4 (year d) ++ "-" ++ zero_pad 2 (month d) ++ "-" ++ zero_pad 2 (day d).

(** The request objects of the backend, built with keyword arguments. *)
Module FlightRequest.
Record t : Type := make {
  origin : string;
  destination : string;
  outbound_date : string;
  return_date : string
}.
End FlightRequest.

Module HotelRequest.
Record t : Type := make {
  location : string;
  check_in_date : string;
  check_out_date : string
}.
End HotelRequest.

(** What the script reads of a result.  A field of a flight or hotel
    record holds the text that the card's f-string interpolates for
    that attribute. *)
Module SearchResult.
Record flight : Type := Flight {
  airline : string;
  price : string;
  duration : string;
  stops : string;
  departure : string;
  arrival : string
}.
Record hotel : Type := Hotel {
  name : string;
  hotel_price : string;
  rating : string;
  hotel_location : string;
  link : string
}.
Record t : Type := make {
  flights : list flight;
  hotels : list hotel;
  ai_flight_recommendation : string;
  ai_hotel_recommendation : string;
  itinerary : option string
}.
End SearchResult.

(** What an entry point can return: [None], a result object (truthy,
    as an object without [__bool__] or [__len__] is), or some other
    falsy value. *)
Inductive value : Type :=
| PyNone
| Falsy
| Result (r : SearchResult.t).

(** [bool(v)], as in [if search_result:]. *)
Definition truthy (v : value) : bool :=
  match v with
  | Result _ => true
  | PyNone | Falsy => false
  end.

(** *** The backend *)

Inductive call : Type :=
| Call_complete_travel_search (flight_request : FlightRequest.t)
                              (hotel_request : HotelRequest.t)
| Call_search_flights_endpoint (flight_request : FlightRequest.t)
| Call_search_hotels_endpoint (hotel_request : HotelRequest.t).

(** The three entry points of [gemini2_travel_v2]: each returns a value
    or raises. *)
Record Backend : Type := {
  complete_travel_search : FlightRequest.t -> HotelRequest.t -> result value;
  search_flights_endpoint : FlightRequest.t -> result value;
  search_hotels_endpoint : HotelRequest.t -> result value
}.

(** *** The page *)

(** Where an element is drawn: the [with] blocks around it, outermost
    first. *)
Inductive frame : Type :=
| Spinner
| Tab (i : nat)
| Column (i : nat)
| Container
| Expander.

Inductive element : Type :=
| error (body : string)
| info (body : string)
| subheader (body : string)
| markdown (body : option string)
| spinner (text : string)
| tabs (labels : list string)
| columns (n : nat)
| container
| expander (label : string)
| link_button (label url : string)
| download_button (label : string) (data : option string) (file_name : string).

Inductive event : Type :=
| Draw (path : list frame) (e : element)
| Call (c : call).

Definition st (e : element) : M event unit := emit (Draw [] e).

Definition enter (fr : frame) (ev : event) : event :=
  match ev with
  | Draw path e => Draw (fr :: path) e
  | Call c => Call c
  end.

(** [with fr: m]. *)
Definition within {A} (fr : frame) (m : M event A) : M event A :=
  (map (enter fr) (fst m), snd m).

Definition IndexError : exn := Exn "IndexError" "list index out of range".

(** [st.tabs(labels)] draws the tab bar and returns one handle per
    label; [tabs[i]] of the [n] handles raises out of range. *)
Definition st_tabs (labels : list string) : M event nat :=
  st (tabs labels);; ret (length labels).

Definition tab_at (n i : nat) : M event frame :=
  if i <? n then ret (Tab i) else raise IndexError.

Definition st_columns (n : nat) : M event nat :=
  st (columns n);; ret n.

Definition column_at (n i : nat) : M event frame :=
  if i <? n then ret (Column i) else raise IndexError.

(** [with cols[i].container(border=True): m]. *)
Definition in_container {A} (cols i : nat) (m : M event A) : M event A :=
  col <- column_at cols i;;
  within col (st container;; within Container m).

(** [with st.expander(label, expanded=True): m]. *)
Definition in_expander {A} (label : string) (m : M event A) : M event A :=
  st (expander label);; within Expander m.

(** *** The form *)

Definition mode_complete : string := "Complete (Flights + Hotels + Itinerary)".
Definition mode_flights : string := "Flights Only".
Definition mode_hotels : string := "Hotels Only".

(** The options of the [st.radio] in the sidebar. *)
Definition search_modes : list string := [mode_complete; mode_flights; mode_hotels].

(** The values of the widgets in one run of the script; drawing the
    sidebar and the form, lines 33 to 89, is what yields them, see
    [App.page].  [search_mode] is the choice of the
    [st.radio], one of [search_modes].  [hotel_location_input] is the
    text of the "Hotel Location" field, which is only drawn when the
    checkbox is cleared. *)
Record Widgets : Type := {
  search_mode : string;
  origin : string;
  destination : string;
  outbound_date : date;
  return_date : date;
  use_flight_destination : bool;
  hotel_location_input : string;
  check_in_date : date;
  check_out_date : date;
  submit_button : bool
}.

(** Lines 78 to 82. *)
Definition location (w : Widgets) : string :=
  if use_flight_destination w then destination w
  else hotel_location_input w.

(** *** The search, lines 95 to 127 *)

Definition flight_req (w : Widgets) : FlightRequest.t :=
  FlightRequest.make (origin w) (destination w)
    (str_date (outbound_date w)) (str_date (return_date w)).

Definition hotel_req (w : Widgets) : HotelRequest.t :=
  HotelRequest.make (location w)
    (str_date (check_in_date w)) (str_date (check_out_date w)).

(** What the backend answers to a call. *)
Definition invoke (B : Backend) (c : call) : result value :=
  match c with
  | Call_complete_travel_search flight_request hotel_request =>
      complete_travel_search B flight_request hotel_request
  | Call_search_flights_endpoint flight_request =>
      search_flights_endpoint B flight_request
  | Call_search_hotels_endpoint hotel_request =>
      search_hotels_endpoint B hotel_request
  end.

(** [await entry_point(...)]: the call is made, then its answer is the
    value of the expression or the exception it raises. *)
Definition await (B : Backend) (c : call) : M event value :=
  emit (Call c);; lift (invoke B c).

Definition run_search (B : Backend) (w : Widgets) : M event value :=
  let flight_req := flight_req w in
  let hotel_req := hotel_req w in
  (* result = None *)
  try_except
    (if (search_mode w =? mode_complete)%string then
       await B (Call_complete_travel_search flight_req hotel_req)
     else if (search_mode w =? mode_flights)%string then
       await B (Call_search_flights_endpoint flight_req)
     else if (search_mode w =? mode_hotels)%string then
       await B (Call_search_hotels_endpoint hotel_req)
     else ret PyNone)
    (fun e =>
       st (error ("Search failed: " ++ exn_str e));;
       ret PyNone).

(** *** The results, lines 139 to 207 *)

(** The indentation of the lines of a card inside its triple-quoted
    literal. *)
Definition indent : string := "                                ".

Definition flight_card (flight : SearchResult.flight) : string :=
  PyStr.nl ++ indent ++ "**" ++ SearchResult.airline flight ++ "**  " ++
  PyStr.nl ++ indent ++ "💰 **$" ++ SearchResult.price flight ++ "** | ⏱️ "
    ++ SearchResult.duration flight ++ " | " ++ SearchResult.stops flight ++ "  " ++
  PyStr.nl ++ indent ++ "🛫 " ++ SearchResult.departure flight ++ "  " ++
  PyStr.nl ++ indent ++ "🛬 " ++ SearchResult.arrival flight ++
  PyStr.nl ++ indent.

Definition hotel_card (hotel : SearchResult.hotel) : string :=
  PyStr.nl ++ indent ++ "**" ++ SearchResult.name hotel ++ "**  " ++
  PyStr.nl ++ indent ++ "💰 " ++ SearchResult.hotel_price hotel ++ " | ⭐ "
    ++ SearchResult.rating hotel ++ "  " ++
  PyStr.nl ++ indent ++ "📍 " ++ SearchResult.hotel_location hotel ++
  PyStr.nl ++ indent.

Definition tabs_flights : list string := ["✈️ Flights"; "🏆 AI Recommendation"].
Definition tabs_hotels : list string := ["🏨 Hotels"; "🏆 AI Recommendation"].
Definition tabs_complete : list string :=
  ["✈️ Flights"; "🏨 Hotels"; "🏆 AI Recommendations"; "📅 Itinerary"].

Definition msg_no_flights : string := "No flights found.".
Definition msg_no_hotels : string := "No hotels found.".

(** The body of [with tabs[0]:], lines 154 to 166. *)
Definition flights_panel (search_result : SearchResult.t) : M event unit :=
  let flights := SearchResult.flights search_result in
  st (subheader ("Flight Options (" ++ PyStr.of_nat (length flights) ++ ")"));;
  match flights with
  | _ :: _ =>
      cols <- st_columns 2;;
      for_enumerate 0 flights (fun i flight =>
        in_container cols (i mod 2) (st (markdown (Some (flight_card flight)))))
  | [] => st (info msg_no_flights)
  end.

(** The body of [with tabs[tab_idx]:], lines 172 to 184. *)
Definition hotels_panel (search_result : SearchResult.t) : M event unit :=
  let hotels := SearchResult.hotels search_result in
  st (subheader ("Hotel Options (" ++ PyStr.of_nat (length hotels) ++ ")"));;
  match hotels with
  | _ :: _ =>
      cols <- st_columns 3;;
      for_enumerate 0 hotels (fun i hotel =>
        in_container cols (i mod 3)
          (st (markdown (Some (hotel_card hotel)));;
           st (link_button "View Deal" (SearchResult.link hotel))))
  | [] => st (info msg_no_hotels)
  end.

(** Lines 143 to 207: what is drawn for a truthy [search_result]. *)
Definition render (search_mode : string) (search_result : SearchResult.t)
    : M event unit :=
  (* Determine appropriate tabs *)
  tabs <- (if (search_mode =? mode_flights)%string then st_tabs tabs_flights
           else if (search_mode =? mode_hotels)%string then st_tabs tabs_hotels
           else st_tabs tabs_complete);;
  (* 1. Flights Tab *)
  (if negb (search_mode =? mode_hotels)%string then
     tab <- tab_at tabs 0;;
     within tab (flights_panel search_result)
   else ret tt);;
  (* 2. Hotels Tab *)
  (if negb (search_mode =? mode_flights)%string then
     let tab_idx := if (search_mode =? mode_complete)%string then 1 else 0 in
     tab <- tab_at tabs tab_idx;;
     within tab (hotels_panel search_result)
   else ret tt);;
  (* 3. AI Recommendations Tab *)
  let rec_tab_idx := if negb (search_mode =? mode_complete)%string then 1 else 2 in
  tab <- tab_at tabs rec_tab_idx;;
  within tab
    ((if negb (search_mode =? mode_hotels)%string then
        in_expander "✈️ AI Flight Analysis"
          (st (markdown (Some (SearchResult.ai_flight_recommendation search_result))))
      else ret tt);;
     (if negb (search_mode =? mode_flights)%string then
        in_expander "🏨 AI Hotel Analysis"
          (st (markdown (Some (SearchResult.ai_hotel_recommendation search_result))))
      else ret tt));;
  (* 4. Itinerary Tab *)
  if (search_mode =? mode_complete)%string then
    tab <- tab_at tabs 3;;
    within tab
      (st (subheader "📅 Your AI-Generated Itinerary");;
       st (markdown (SearchResult.itinerary search_result));;
       st (download_button "📥 Download Itinerary"
             (SearchResult.itinerary search_result) "itinerary.md"))
  else ret tt.

(** *** The submission, lines 129 to 207 *)

Definition msg_validation : string := "Please provide origin and destination.".
Definition msg_spinner : string :=
  "🤖 AI Agents are planning your trip... (Searching Flights, Hotels & Generating Itinerary)".

(** The body of [if submit_button:].  In [if search_result:] the truthy
    values are the result objects, see [truthy]. *)
Definition on_submit (B : Backend) (w : Widgets) : M event unit :=
  if negb (PyStr.truthy (origin w)) || negb (PyStr.truthy (destination w)) then
    st (error msg_validation)
  else
    st (spinner msg_spinner);;
    search_result <- within Spinner (run_search B w);;
    match search_result with
    | Result r => render (search_mode w) r
    | PyNone | Falsy => ret tt
    end.

(** One run of the script after the form is drawn. *)
Definition script (B : Backend) (w : Widgets) : M event unit :=
  if submit_button w then on_submit B w else ret tt.

(** *** Reading a run *)

(** The entry point that [run_search] awaits, by the mode. *)
Definition entry_point (w : Widgets) : option call :=
  if (search_mode w =? mode_complete)%string then
    Some (Call_complete_travel_search (flight_req w) (hotel_req w))
  else if (search_mode w =? mode_flights)%string then
    Some (Call_search_flights_endpoint (flight_req w))
  else if (search_mode w =? mode_hotels)%string then
    Some (Call_search_hotels_endpoint (hotel_req w))
  else None.

(** The card of the [i]-th flight, in column [i % 2] of its tab, and of
    the [i]-th hotel, in column [i % 3]. *)
Definition flight_card_events (i : nat) (flight : SearchResult.flight) : list event :=
  [Draw [Column (i mod 2)] container;
   Draw [Column (i mod 2); Container] (markdown (Some (flight_card flight)))].

Definition hotel_card_events (i : nat) (hotel : SearchResult.hotel) : list event :=
  [Draw [Column (i mod 3)] container;
   Draw [Column (i mod 3); Container] (markdown (Some (hotel_card hotel)));
   Draw [Column (i mod 3); Container]
        (link_button "View Deal" (SearchResult.link hotel))].

(** The request objects that a call carries. *)
Definition flight_request_of (c : call) : option FlightRequest.t :=
  match c with
  | Call_complete_travel_search flight_request _ => Some flight_request
  | Call_search_flights_endpoint flight_request => Some flight_request
  | Call_search_hotels_endpoint _ => None
  end.

Definition hotel_request_of (c : call) : option HotelRequest.t :=
  match c with
  | Call_complete_travel_search _ hotel_request => Some hotel_request
  | Call_search_flights_endpoint _ => None
  | Call_search_hotels_endpoint hotel_request => Some hotel_request
  end.

(** The entry points invoked, in order. *)
Fixpoint calls (t : list event) : list call :=
  match t with
  | [] => []
  | Call c :: t' => c :: calls t'
  | Draw _ _ :: t' => calls t'
  end.

(** The elements drawn, in order, with their place. *)
Fixpoint shown (t : list event) : list (list frame * element) :=
  match t with
  | [] => []
  | Draw path e :: t' => (path, e) :: shown t'
  | Call _ :: t' => shown t'
  end.

Definition is_tabs (e : element) : bool :=
  match e with tabs _ => true | _ => false end.
Definition is_error (e : element) : bool :=
  match e with error _ => true | _ => false end.
Definition is_download (e : element) : bool :=
  match e with download_button _ _ _ => true | _ => false end.
Definition is_container (e : element) : bool :=
  match e with container => true | _ => false end.

(** The elements of a trace that satisfy [p]. *)
Definition drawn (p : element -> bool) (t : list event) : list element :=
  filter p (map snd (shown t)).

(** What is drawn inside tab [i], with its place inside the tab. *)
Fixpoint in_tab (i : nat) (t : list event) : list (list frame * element) :=
  match t with
  | [] => []
  | Draw (Tab j :: path) e :: t' =>
      if j =? i then (path, e) :: in_tab i t' else in_tab i t'
  | _ :: t' => in_tab i t'
  end.

(** A test on elements that none of the elements of a panel passes. *)
Definition above_panels (p : element -> bool) : Prop :=
  p container = false /\
  (forall body, p (markdown body) = false) /\
  (forall body, p (subheader body) = false) /\
  (forall body, p (info body) = false) /\
  (forall n, p (columns n) = false) /\
  (forall label url, p (link_button label url) = false).

(** *** Sample runs *)

(** Record updates of the two airport fields. *)
Definition with_origin (o : string) (w : Widgets) : Widgets := {|
  search_mode := search_mode w;
  origin := o;
  destination := destination w;
  outbound_date := outbound_date w;
  return_date := return_date w;
  use_flight_destination := use_flight_destination w;
  hotel_location_input := hotel_location_input w;
  check_in_date := check_in_date w;
  check_out_date := check_out_date w;
  submit_button := submit_button w
|}.

Definition with_destination (d : string) (w : Widgets) : Widgets := {|
  search_mode := search_mode w;
  origin := origin w;
  destination := d;
  outbound_date := outbound_date w;
  return_date := return_date w;
  use_flight_destination := use_flight_destination w;
  hotel_location_input := hotel_location_input w;
  check_in_date := check_in_date w;
  check_out_date := check_out_date w;
  submit_button := submit_button w
|}.

(** Sample runs: a submitted form with the given mode, airports,
    checkbox and hotel location, and a backend whose three entry points
    all give the same answer. *)
Definition submitted (mode origin destination : string) (toggle : bool)
    (hotel_location : string) : Widgets := {|
  search_mode := mode;
  origin := origin;
  destination := destination;
  outbound_date := Date 2026 11 5;
  return_date := Date 2026 11 12;
  use_flight_destination := toggle;
  hotel_location_input := hotel_location;
  check_in_date := Date 2026 11 5;
  check_out_date := Date 2026 11 12;
  submit_button := true
|}.

Definition answering (answer : result value) : Backend := {|
  complete_travel_search := fun _ _ => answer;
  search_flights_endpoint := fun _ => answer;
  search_hotels_endpoint := fun _ => answer
|}.

Definition nothing_found : SearchResult.t :=
  SearchResult.make [] [] "No flight to recommend." "No hotel to recommend."
    (Some "Stay home.").
End Planner.

(** ** Reading a run of the diagnostics script *)

Module DebugAIReading.
Import Script DebugAI.

(** The calls into the agent framework among the events of a run. *)
Definition is_framework_call (ev : event) : bool :=
  match ev with
  | Prints _ | Exit _ => false
  | LLM _ _ | Agent _ _ _ | Task _ _ | Crew | Kickoff => true
  end.

Definition framework_calls (t : list event) : list event :=
  filter is_framework_call t.

(** The calls of the connection test when nothing fails, in the order
    of lines 36 to 58. *)
Definition connection_steps (api_key : option string) : list event :=
  [LLM model_name api_key;
   Agent "Test Agent" "Verify API connection" "I am a test agent.";
   Task "Reply with exactly three words: 'Connection is working'."
        "A simple confirmation phrase.";
   Crew;
   Kickoff].

Definition forget {A} (r : result A) : result unit :=
  match r with
  | Ok _ => Ok tt
  | Raise e => Raise e
  end.

(** What the framework answers to these calls, in the same order. *)
Definition answers (W : World) (api_key : option string) : list (result unit) :=
  [new_LLM W model_name api_key; new_Agent W; new_Task W; new_Crew W;
   forget (kickoff W)].

(** How many calls succeed before the first one that raises, and the
    exception that one raises. *)
Fixpoint succeeded (rs : list (result unit)) : nat :=
  match rs with
  | Ok _ :: rs' => S (succeeded rs')
  | _ => 0
  end.

Fixpoint first_failure (rs : list (result unit)) : option exn :=
  match rs with
  | [] => None
  | Ok _ :: rs' => first_failure rs'
  | Raise e :: _ => Some e
  end.

(** The lines that the connection test prints before its verdict. *)
Definition progress_lines : list string :=
  [PyStr.nl ++ "Testing CrewAI / Gemini Connection...";
   "Initializing LLM with model: " ++ model_name;
   "Starting Crew execution..."].

(** A world in which the call number [n] of the connection test, from
    0, raises [e] and the others succeed. *)
Definition world_failing (n : nat) (e : exn) (api_key : option string) : World := {|
  getenv_GOOGLE_API_KEY := api_key;
  import_crewai := None;
  new_LLM := fun _ _ => if n =? 0 then Raise e else Ok tt;
  new_Agent := if n =? 1 then Raise e else Ok tt;
  new_Task := if n =? 2 then Raise e else Ok tt;
  new_Crew := if n =? 3 then Raise e else Ok tt;
  kickoff := if n =? 4 then Raise e else Ok "Connection is working"
|}.

(** A world in which the framework cannot be imported. *)
Definition world_without_crewai (e : exn) (api_key : option string) : World := {|
  getenv_GOOGLE_API_KEY := api_key;
  import_crewai := Some e;
  new_LLM := fun _ _ => Ok tt;
  new_Agent := Ok tt;
  new_Task := Ok tt;
  new_Crew := Ok tt;
  kickoff := Ok "Connection is working"
|}.

(** Two keys of plausible length that share their first six characters. *)
Definition key_plausible' : string := "AIzaSyabcdefghijklmnopqrstuvwxyz01234".

End DebugAIReading.

(** ** Reading what a result draws *)

Module PlannerReading.
Import Script Planner.

(** [enumerate(xs)], counting from [i]. *)
Fixpoint enumerate {A} (i : nat) (xs : list A) : list (nat * A) :=
  match xs with
  | [] => []
  | x :: xs' => (i, x) :: enumerate (S i) xs'
  end.

(** The cards among what a tab holds: for each text drawn in a
    container of a column, the column and the text. *)
Fixpoint cards (content : list (list frame * element)) : list (nat * string) :=
  match content with
  | [] => []
  | ([Column k; Container], markdown (Some body)) :: rest => (k, body) :: cards rest
  | _ :: rest => cards rest
  end.

(** The link buttons among what a tab holds: column, label and target. *)
Fixpoint links (content : list (list frame * element)) : list (nat * string * string) :=
  match content with
  | [] => []
  | ([Column k; Container], link_button label url) :: rest =>
      (k, label, url) :: links rest
  | _ :: rest => links rest
  end.

(** The number of containers that a tab holds. *)
Definition containers (content : list (list frame * element)) : nat :=
  length (filter is_container (map snd content)).

(** A sample result with three flights and four hotels. *)
Definition sample_flight (airline : string) : SearchResult.flight :=
  SearchResult.Flight airline "320" "5h 10m" "Nonstop" "ATL 08:00" "LAX 10:10".

Definition sample_hotel (name : string) : SearchResult.hotel :=
  SearchResult.Hotel name "$180" "4.5" "Los Angeles" ("https://hotels.example/" ++ name).

Definition sample_result : SearchResult.t :=
  SearchResult.make
    [sample_flight "Delta"; sample_flight "United"; sample_flight "Alaska"]
    [sample_hotel "a"; sample_hotel "b"; sample_hotel "c"; sample_hotel "d"]
    "Take Delta." "Stay at a." (Some "Day 1: arrive.").

End PlannerReading.

(** ** The start of the planner script, lines 1 to 89 *)

Module App.
Import Script Planner.

(** [os.environ] and [st.secrets], read as maps from names to values. *)
Definition mapping : Type := string -> option string.

(** [m[key] = value]. *)
Definition setitem (m : mapping) (key value : string) : mapping :=
  fun k => if (k =? key)%string then Some value else m k.

(** [if name in st.secrets: os.environ[name] = st.secrets[name]]. *)
Definition copy_secret (name : string) (secrets environ : mapping) : mapping :=
  match secrets name with
  | Some value => setitem environ name value
  | None => environ
  end.

(** Lines 10 to 14: the environment after them. *)
Definition load_secrets (secrets environ : mapping) : mapping :=
  copy_secret "SERP_API_KEY" secrets
    (copy_secret "GOOGLE_API_KEY" secrets environ).

(** Where a widget of the page is drawn. *)
Inductive place : Type :=
| Sidebar
| InForm
| Col (i : nat).

Inductive widget : Type :=
| PageConfig (page_title page_icon layout initial_sidebar_state : string)
| Title (body : string)
| Caption (body : string)
| Markdown (body : string)
| Subheader (body : string)
| Radio (label : string) (options : list string)
| Form (key : string)
| Columns (spec : list nat)
| TextInput (label value : string)
| DateInput (label : string) (value : date)
| Checkbox (label : string) (value : bool)
| InfoBox (body : string)
| FormSubmitButton (label : string) (use_container_width : bool)
| ErrorBox (body : string)
| Stop.

(** Lines 33 to 89: the widgets drawn, in order, each with the default
    it is given.  [days_from_now n] is the calendar date [n] days after
    [datetime.now()]; the values that the widgets return are [w]. *)
Definition page (days_from_now : nat -> date) (w : Widgets)
    : list (list place * widget) :=
  let tomorrow := days_from_now 1 in
  let next_week := days_from_now (1 + 7) in
  [([], PageConfig "✈️ AI-Powered Travel Planner" "✈️" "wide" "expanded");
   ([Sidebar], Title "⚙️ Options");
   ([Sidebar], Radio "Search Mode"
      ["Complete (Flights + Hotels + Itinerary)"; "Flights Only"; "Hotels Only"]);
   ([Sidebar], Markdown "---");
   ([Sidebar], Caption "AI-Powered Travel Planner v2.0");
   ([Sidebar], Caption "© 2025 Travel AI Solutions");
   ([], Title "✈️ AI-Powered Travel Planner");
   ([], Markdown (PyStr.nl ++ "    **Find flights, hotels, and get personalized recommendations with AI! Create your perfect travel itinerary in seconds.**" ++ PyStr.nl));
   ([], Form "travel_search_form");
   ([InForm], Columns [1; 1]);
   ([InForm; Col 0], Subheader "🛫 Flight Details");
   ([InForm; Col 0], TextInput "Departure Airport (IATA code)" "ATL");
   ([InForm; Col 0], TextInput "Arrival Airport (IATA code)" "LAX");
   ([InForm; Col 0], DateInput "Departure Date" tomorrow);
   ([InForm; Col 0], DateInput "Return Date" next_week);
   ([InForm; Col 1], Subheader "🏨 Hotel Details");
   ([InForm; Col 1], Checkbox "Use flight destination for hotel" true);
   ([InForm; Col 1],
    if use_flight_destination w
    then InfoBox ("Using flight destination (" ++ destination w ++ ") for hotel search")
    else TextInput "Hotel Location" "");
   ([InForm; Col 1], DateInput "Check-In Date" (outbound_date w));
   ([InForm; Col 1], DateInput "Check-Out Date" (return_date w));
   ([InForm], Columns [3; 1]);
   ([InForm; Col 1], FormSubmitButton "🔍 Search" true)].

Inductive app_event : Type :=
| Page (path : list place) (x : widget)
| Submission (ev : event).

Definition draw_page (days_from_now : nat -> date) (w : Widgets) : M app_event unit :=
  (map (fun p => Page (fst p) (snd p)) (page days_from_now w), Ok tt).

Definition submission (B : Backend) (w : Widgets) : M app_event unit :=
  (map Submission (trace (script B w)), outcome (script B w)).

(** The script from line 16 on.  [backend] is [None] when the import of
    [gemini2_travel_v2] raises ImportError. *)
Definition app (backend : option Backend) (days_from_now : nat -> date)
    (w : Widgets) : M app_event unit :=
  match backend with
  | None =>
      bind (emit (Page [] (ErrorBox "Could not import backend logic. Ensure 'gemini2_travel_v2.py' is in the same directory.")))
           (fun _ => emit (Page [] Stop))
  | Some B =>
      bind (draw_page days_from_now w) (fun _ => submission B w)
  end.

(** Sample surroundings: secrets that hold one of the two keys, and an
    environment that holds both and a third variable. *)
Definition sample_secrets : mapping :=
  fun k => if (k =? "GOOGLE_API_KEY")%string then Some "from-secrets" else None.

Definition sample_environ : mapping :=
  fun k =>
    if (k =? "GOOGLE_API_KEY")%string then Some "from-env"
    else if (k =? "SERP_API_KEY")%string then Some "serp-from-env"
    else if (k =? "HOME")%string then Some "/home/app"
    else None.

Definition sample_calendar (n : nat) : date := Date 2026 11 (4 + n).

End App.

(** * Properties *)

(** ** Strings *)

Module PyStrFacts.
Import PyStr.

Example len_ascii : len "your_google_api_key_here" = 24.
Proof. reflexivity. Qed.

(** Two characters of three bytes each, then eight of one byte. *)
Example len_counts_characters : len "✈️ Flights" = 10 /\ String.length "✈️ Flights" = 14.
Proof. split; reflexivity. Qed.

Example take_characters : take 2 "✈️ Flights" = "✈️" /\ take 6 "short" = "short".
Proof. split; reflexivity. Qed.

Example contains_inside : contains "key" "your_google_api_key_here" = true.
Proof. reflexivity. Qed.

Example contains_not : contains "keys" "your_google_api_key_here" = false.
Proof. reflexivity. Qed.

Lemma starts_with_app (p s : string) :
  starts_with p s = true <-> exists post, s = p ++ post.
Proof.
  revert s; induction p as [|a p IH]; intros s; simpl.
  - split; [intros _; now exists s | reflexivity].
  - destruct s as [|b s].
    + split; [discriminate | intros [post H]; discriminate].
    + rewrite andb_true_iff, Ascii.eqb_eq, IH. split.
      * intros [-> [post ->]]. now exists post.
      * intros [post H]. injection H as -> ->. split; [reflexivity | now exists post].
Qed.

(** [contains] is the substring relation. *)
Lemma contains_app (sub s : string) :
  contains sub s = true <-> exists pre post, s = pre ++ sub ++ post.
Proof.
  induction s as [|b s IH]; simpl; rewrite orb_true_iff, starts_with_app.
  - split.
    + intros [[post H] | H]; [|discriminate]. now exists EmptyString, post.
    + intros [[|c pre] [post H]]; [left; now exists post | discriminate].
  - rewrite IH. split.
    + intros [[post H] | [pre [post H]]].
      * now exists EmptyString, post.
      * exists (String b pre), post. simpl. now rewrite H.
    + intros [[|c pre] [post H]].
      * left. now exists post.
      * right. simpl in H. injection H as -> ->. now exists pre, post.
Qed.

Lemma contains_refl (s : string) : contains s s = true.
Proof.
  apply contains_app. exists EmptyString, EmptyString. simpl.
  induction s as [|c s IH]; simpl; [reflexivity | now rewrite <- IH].
Qed.

Lemma truthy_false (s : string) : truthy s = false <-> s = EmptyString.
Proof. destruct s; simpl; split; congruence. Qed.

Lemma truthy_true (s : string) : truthy s = true <-> s <> EmptyString.
Proof. destruct s; simpl; split; congruence. Qed.

Lemma len_app (s t : string) : len (s ++ t) = len s + len t.
Proof. induction s as [|c s IH]; simpl; [reflexivity | rewrite IH; lia]. Qed.

(** A string that contains [sub] has at least as many characters. *)
Lemma contains_len (sub s : string) :
  contains sub s = true -> len sub <= len s.
Proof.
  intros H. apply contains_app in H as [pre [post ->]].
  rewrite !len_app. lia.
Qed.

End PyStrFacts.

(** ** Scripts *)

Module ScriptFacts.
Import Script.

Lemma bind_ok {E A B} (t : list E) (a : A) (k : A -> M E B) :
  bind (t, Ok a) k = ((t ++ trace (k a))%list, outcome (k a)).
Proof. unfold bind, trace, outcome. destruct (k a); reflexivity. Qed.

Lemma bind_raise {E A B} (t : list E) (e : exn) (k : A -> M E B) :
  bind (t, Raise e) k = (t, Raise e).
Proof. reflexivity. Qed.

Lemma for_enumerate_unroll {E A} (body : nat -> A -> M E unit)
    (f : nat -> A -> list E) :
  (forall i x, body i x = (f i x, Ok tt)) ->
  forall xs i, for_enumerate i xs body = (unroll f i xs, Ok tt).
Proof.
  intros Hbody xs. induction xs as [|x xs IH]; intros i; simpl.
  - reflexivity.
  - rewrite Hbody, bind_ok, IH. reflexivity.
Qed.

End ScriptFacts.

(** ** The diagnostics script *)

Module DebugAIFacts.
Import Script DebugAI.

Lemma check_api_key_absent (api_key : option string) :
  absent api_key ->
  check_api_key api_key =
    ([Prints "Checking API Key configuration..."; Prints msg_not_found], Ok tt).
Proof. intros [-> | ->]; reflexivity. Qed.

Lemma check_api_key_set (key : string) :
  key <> EmptyString ->
  check_api_key (Some key) =
    (Prints "Checking API Key configuration..." :: Prints (msg_is_set key) ::
     (if PyStr.contains placeholder key then [Prints msg_placeholder]
      else if PyStr.len key <? min_length
           then [Prints (msg_too_short key); Prints (msg_value key)]
           else [Prints (msg_valid_format key)]),
     Ok tt).
Proof.
  intros Hne. apply PyStrFacts.truthy_true in Hne.
  unfold check_api_key. rewrite Hne.
  destruct (PyStr.contains placeholder key); [reflexivity|].
  destruct (PyStr.len key <? min_length); reflexivity.
Qed.

(** C5, as the script has it: a key that holds the placeholder literal
    anywhere inside it (so also a key equal to it) is reported as the
    placeholder; a key that is not empty, does not hold the placeholder
    and has fewer than 30 characters is reported as too short, with its
    value; a key of 30 characters or more that does not hold the
    placeholder is reported as of valid format. *)
Theorem key_classification (key : string) :
  (key = placeholder -> PyStr.contains placeholder key = true) /\
  (PyStr.contains placeholder key = true ->
   check_api_key (Some key) =
     ([Prints "Checking API Key configuration..."; Prints (msg_is_set key);
       Prints msg_placeholder], Ok tt)) /\
  (key <> EmptyString -> PyStr.contains placeholder key = false ->
   PyStr.len key < min_length ->
   check_api_key (Some key) =
     ([Prints "Checking API Key configuration..."; Prints (msg_is_set key);
       Prints (msg_too_short key); Prints (msg_value key)], Ok tt)) /\
  (PyStr.contains placeholder key = false -> min_length <= PyStr.len key ->
   check_api_key (Some key) =
     ([Prints "Checking API Key configuration..."; Prints (msg_is_set key);
       Prints (msg_valid_format key)], Ok tt)).
Proof.
  repeat split.
  - intros ->. apply PyStrFacts.contains_refl.
  - intros Hin.
    assert (Hne : key <> EmptyString) by (intros ->; discriminate Hin).
    rewrite (check_api_key_set key Hne), Hin. reflexivity.
  - intros Hne Hout Hlen.
    rewrite (check_api_key_set key Hne), Hout.
    apply Nat.ltb_lt in Hlen. rewrite Hlen. reflexivity.
  - intros Hout Hlen.
    assert (Hne : key <> EmptyString) by (intros ->; vm_compute in Hlen; lia).
    rewrite (check_api_key_set key Hne), Hout.
    apply Nat.ltb_ge in Hlen. rewrite Hlen. reflexivity.
Qed.

Lemma key_classification_witness :
  check_api_key (Some placeholder) =
    ([Prints "Checking API Key configuration..."; Prints (msg_is_set placeholder);
      Prints msg_placeholder], Ok tt) /\
  check_api_key (Some key_short) =
    ([Prints "Checking API Key configuration..."; Prints (msg_is_set key_short);
      Prints (msg_too_short key_short); Prints (msg_value key_short)], Ok tt) /\
  check_api_key (Some key_plausible) =
    ([Prints "Checking API Key configuration..."; Prints (msg_is_set key_plausible);
      Prints (msg_valid_format key_plausible)], Ok tt).
Proof.
  split; [|split].
  - apply (proj1 (proj2 (key_classification placeholder))).
    apply (proj1 (key_classification placeholder)). reflexivity.
  - apply (proj1 (proj2 (proj2 (key_classification key_short)))).
    + discriminate.
    + reflexivity.
    + vm_compute; lia.
  - apply (proj2 (proj2 (proj2 (key_classification key_plausible)))).
    + reflexivity.
    + vm_compute; lia.
Defined.

(** C5 fails as stated: a key of 35 characters that is not the
    placeholder but holds it is reported as the placeholder, not as of
    valid format; and the empty key, shorter than 30 characters, is
    reported as not found, not as too short. *)
Lemma key_classification_counterexample :
  (min_length <= PyStr.len key_around_placeholder /\
   key_around_placeholder <> placeholder /\
   trace (check_api_key (Some key_around_placeholder)) =
     [Prints "Checking API Key configuration...";
      Prints (msg_is_set key_around_placeholder); Prints msg_placeholder] /\
   ~ In (Prints (msg_valid_format key_around_placeholder))
        (trace (check_api_key (Some key_around_placeholder)))) /\
  (PyStr.len EmptyString < min_length /\
   trace (check_api_key (Some EmptyString)) =
     [Prints "Checking API Key configuration..."; Prints msg_not_found] /\
   ~ In (Prints (msg_too_short EmptyString))
        (trace (check_api_key (Some EmptyString)))).
Proof.
  split; [split; [|split; [|split]] | split; [|split]].
  - vm_compute; lia.
  - discriminate.
  - reflexivity.
  - vm_compute. intros [H | [H | [H | []]]]; discriminate H.
  - vm_compute; lia.
  - reflexivity.
  - vm_compute. intros [H | [H | []]]; discriminate H.
Qed.

(** The connection test does not depend on what was said about the key:
    it starts by announcing itself and constructing the LLM with the
    key as read, whatever it is, and it never raises. *)
Lemma test_connection_starts (W : World) (api_key : option string) :
  exists rest,
    test_connection W api_key =
      ([Prints (PyStr.nl ++ "Testing CrewAI / Gemini Connection...");
        Prints ("Initializing LLM with model: " ++ model_name);
        LLM model_name api_key] ++ rest, Ok tt)%list /\
    forall code, ~ In (Exit code) rest.
Proof.
  unfold test_connection, print, lift, emit, try_except, bind.
  destruct (new_LLM W model_name api_key) as [[]|e1];
  [destruct (new_Agent W) as [[]|e2];
   [destruct (new_Task W) as [[]|e3];
    [destruct (new_Crew W) as [[]|e4];
     [destruct (kickoff W) as [answer|e5]|]|]|]|];
  cbv beta iota; eexists; (split; [reflexivity|]);
  intros code Hin; cbn in Hin;
  repeat (destruct Hin as [Hin|Hin]; [discriminate Hin|]); exact Hin.
Qed.

Lemma test_connection_reaches_kickoff (W : World) (api_key : option string) :
  new_LLM W model_name api_key = Ok tt -> new_Agent W = Ok tt ->
  new_Task W = Ok tt -> new_Crew W = Ok tt ->
  In Kickoff (trace (test_connection W api_key)).
Proof.
  intros H1 H2 H3 H4.
  unfold test_connection, print, lift, emit, try_except, bind.
  rewrite H1, H2, H3, H4.
  destruct (kickoff W) as [answer|e]; cbn; tauto.
Qed.

(** C6, as the script has it: when the key is absent (unset or empty)
    the script reports that it was not found and then goes on to the
    connection test, constructing the LLM with the absent key; it does
    not exit, and when the constructors succeed it calls
    [crew.kickoff()]. *)
Theorem absent_key_is_reported_then_tested (W : World) :
  import_crewai W = None ->
  absent (getenv_GOOGLE_API_KEY W) ->
  (exists rest,
     trace (main W) =
       [Prints "Checking API Key configuration...";
        Prints msg_not_found;
        Prints (PyStr.nl ++ "Testing CrewAI / Gemini Connection...");
        Prints ("Initializing LLM with model: " ++ model_name);
        LLM model_name (getenv_GOOGLE_API_KEY W)] ++ rest)%list /\
  (forall code, ~ In (Exit code) (trace (main W))) /\
  outcome (main W) = Ok tt /\
  (new_LLM W model_name (getenv_GOOGLE_API_KEY W) = Ok tt ->
   new_Agent W = Ok tt -> new_Task W = Ok tt -> new_Crew W = Ok tt ->
   In Kickoff (trace (main W))).
Proof.
  intros Himp Habs. unfold main. rewrite Himp.
  rewrite (check_api_key_absent _ Habs).
  destruct (test_connection_starts W (getenv_GOOGLE_API_KEY W))
    as [rest [Heq Hexit]].
  repeat split.
  - exists rest. rewrite Heq. reflexivity.
  - intros code. rewrite Heq. cbn.
    intros [H | [H | [H | [H | [H | H]]]]]; try discriminate H.
    exact (Hexit code H).
  - rewrite Heq. reflexivity.
  - intros H1 H2 H3 H4.
    pose proof (test_connection_reaches_kickoff W _ H1 H2 H3 H4) as Hk.
    unfold bind. destruct (test_connection W (getenv_GOOGLE_API_KEY W)) as [t r].
    cbn in *. right. right. exact Hk.
Qed.

Lemma absent_key_is_reported_then_tested_witness :
  In Kickoff (trace (main (world_ok None))).
Proof.
  apply (absent_key_is_reported_then_tested (world_ok None));
    try reflexivity.
  left; reflexivity.
Defined.

(** C6 fails as stated: with the key unset, the framework importing and
    its calls succeeding, the script constructs the LLM with no key and
    runs the crew. *)
Lemma absent_key_counterexample :
  getenv_GOOGLE_API_KEY (world_ok None) = None /\
  In (Prints msg_not_found) (trace (main (world_ok None))) /\
  In (LLM model_name None) (trace (main (world_ok None))) /\
  In Kickoff (trace (main (world_ok None))).
Proof. vm_compute. tauto. Qed.

End DebugAIFacts.

(** ** The planner UI *)

Module PlannerFacts.
Import Script Planner ScriptFacts.

Lemma st_columns_eq (n : nat) : st_columns n = ([Draw [] (columns n)], Ok n).
Proof. reflexivity. Qed.

Lemma st_tabs_eq (labels : list string) :
  st_tabs labels = ([Draw [] (tabs labels)], Ok (length labels)).
Proof. reflexivity. Qed.

Lemma in_container_flight (i : nat) (flight : SearchResult.flight) :
  in_container 2 (i mod 2) (st (markdown (Some (flight_card flight)))) =
    (flight_card_events i flight, Ok tt).
Proof.
  unfold in_container, column_at.
  assert (H : (i mod 2 <? 2) = true)
    by (apply Nat.ltb_lt, Nat.mod_upper_bound; discriminate).
  rewrite H. reflexivity.
Qed.

Lemma in_container_hotel (i : nat) (hotel : SearchResult.hotel) :
  in_container 3 (i mod 3)
    (Script.bind (st (markdown (Some (hotel_card hotel))))
       (fun _ => st (link_button "View Deal" (SearchResult.link hotel)))) =
    (hotel_card_events i hotel, Ok tt).
Proof.
  unfold in_container, column_at.
  assert (H : (i mod 3 <? 3) = true)
    by (apply Nat.ltb_lt, Nat.mod_upper_bound; discriminate).
  rewrite H. reflexivity.
Qed.

Lemma flights_panel_eq (r : SearchResult.t) :
  flights_panel r =
    (Draw [] (subheader ("Flight Options (" ++
        PyStr.of_nat (length (SearchResult.flights r)) ++ ")")) ::
     match SearchResult.flights r with
     | [] => [Draw [] (info msg_no_flights)]
     | _ :: _ => Draw [] (columns 2) ::
                 unroll flight_card_events 0 (SearchResult.flights r)
     end, Ok tt).
Proof.
  unfold flights_panel.
  destruct (SearchResult.flights r) as [|f fs] eqn:E; [reflexivity|].
  cbv zeta. rewrite st_columns_eq, !bind_ok. cbv beta.
  rewrite (for_enumerate_unroll _ flight_card_events in_container_flight).
  reflexivity.
Qed.

Lemma hotels_panel_eq (r : SearchResult.t) :
  hotels_panel r =
    (Draw [] (subheader ("Hotel Options (" ++
        PyStr.of_nat (length (SearchResult.hotels r)) ++ ")")) ::
     match SearchResult.hotels r with
     | [] => [Draw [] (info msg_no_hotels)]
     | _ :: _ => Draw [] (columns 3) ::
                 unroll hotel_card_events 0 (SearchResult.hotels r)
     end, Ok tt).
Proof.
  unfold hotels_panel.
  destruct (SearchResult.hotels r) as [|h hs] eqn:E; [reflexivity|].
  cbv zeta. rewrite st_columns_eq, !bind_ok. cbv beta.
  rewrite (for_enumerate_unroll _ hotel_card_events in_container_hotel).
  reflexivity.
Qed.

Lemma flights_panel_ok (r : SearchResult.t) :
  flights_panel r = (trace (flights_panel r), Ok tt).
Proof. rewrite flights_panel_eq. reflexivity. Qed.

Lemma hotels_panel_ok (r : SearchResult.t) :
  hotels_panel r = (trace (hotels_panel r), Ok tt).
Proof. rewrite hotels_panel_eq. reflexivity. Qed.

Lemma render_flights (r : SearchResult.t) :
  render mode_flights r =
    (Draw [] (tabs tabs_flights) ::
      map (enter (Tab 0)) (trace (flights_panel r)) ++
     [Draw [Tab 1] (expander "✈️ AI Flight Analysis");
      Draw [Tab 1; Expander]
        (markdown (Some (SearchResult.ai_flight_recommendation r)))], Ok tt)%list.
Proof.
  unfold render. rewrite (flights_panel_ok r).
  generalize (trace (flights_panel r)) as panel. intros panel.
  vm_compute. reflexivity.
Qed.

Lemma render_hotels (r : SearchResult.t) :
  render mode_hotels r =
    (Draw [] (tabs tabs_hotels) ::
      map (enter (Tab 0)) (trace (hotels_panel r)) ++
     [Draw [Tab 1] (expander "🏨 AI Hotel Analysis");
      Draw [Tab 1; Expander]
        (markdown (Some (SearchResult.ai_hotel_recommendation r)))], Ok tt)%list.
Proof.
  unfold render. rewrite (hotels_panel_ok r).
  generalize (trace (hotels_panel r)) as panel. intros panel.
  vm_compute. reflexivity.
Qed.

Lemma render_complete (r : SearchResult.t) :
  render mode_complete r =
    (Draw [] (tabs tabs_complete) ::
      map (enter (Tab 0)) (trace (flights_panel r)) ++
      map (enter (Tab 1)) (trace (hotels_panel r)) ++
     [Draw [Tab 2] (expander "✈️ AI Flight Analysis");
      Draw [Tab 2; Expander]
        (markdown (Some (SearchResult.ai_flight_recommendation r)));
      Draw [Tab 2] (expander "🏨 AI Hotel Analysis");
      Draw [Tab 2; Expander]
        (markdown (Some (SearchResult.ai_hotel_recommendation r)));
      Draw [Tab 3] (subheader "📅 Your AI-Generated Itinerary");
      Draw [Tab 3] (markdown (SearchResult.itinerary r));
      Draw [Tab 3] (download_button "📥 Download Itinerary"
                      (SearchResult.itinerary r) "itinerary.md")], Ok tt)%list.
Proof.
  unfold render. rewrite (flights_panel_ok r), (hotels_panel_ok r).
  generalize (trace (flights_panel r)) as fp, (trace (hotels_panel r)) as hp.
  intros fp hp. 
  vm_compute. reflexivity.
Qed.

(** *** Reading traces *)

Lemma calls_app (t u : list event) : calls (t ++ u) = (calls t ++ calls u)%list.
Proof.
  induction t as [|[path e|c] t IH]; simpl; [reflexivity | exact IH | now rewrite IH].
Qed.

Lemma shown_app (t u : list event) : shown (t ++ u) = (shown t ++ shown u)%list.
Proof.
  induction t as [|[path e|c] t IH]; simpl; [reflexivity | now rewrite IH | exact IH].
Qed.

Lemma drawn_app (p : element -> bool) (t u : list event) :
  drawn p (t ++ u) = (drawn p t ++ drawn p u)%list.
Proof. unfold drawn. now rewrite shown_app, map_app, filter_app. Qed.

Lemma calls_enter (fr : frame) (t : list event) : calls (map (enter fr) t) = calls t.
Proof.
  induction t as [|[path e|c] t IH]; simpl; [reflexivity | exact IH | now rewrite IH].
Qed.

Lemma drawn_enter (p : element -> bool) (fr : frame) (t : list event) :
  drawn p (map (enter fr) t) = drawn p t.
Proof.
  unfold drawn. induction t as [|[path e|c] t IH]; simpl; [reflexivity | | exact IH].
  now rewrite IH.
Qed.

Lemma in_tab_app (i : nat) (t u : list event) :
  in_tab i (t ++ u) = (in_tab i t ++ in_tab i u)%list.
Proof.
  induction t as [|[[|[| j | | |] path] e|c] t IH]; simpl; try exact IH; [reflexivity|].
  destruct (j =? i); simpl; now rewrite IH.
Qed.

Lemma in_tab_enter (i j : nat) (t : list event) :
  in_tab i (map (enter (Tab j)) t) = if j =? i then shown t else [].
Proof.
  induction t as [|[path e|c] t IH]; simpl.
  - now destruct (j =? i).
  - rewrite IH. now destruct (j =? i).
  - exact IH.
Qed.

Lemma calls_unroll {A} (f : nat -> A -> list event) :
  (forall i x, calls (f i x) = []) ->
  forall xs i, calls (unroll f i xs) = [].
Proof.
  intros Hf xs. induction xs as [|x xs IH]; intros i; simpl; [reflexivity|].
  now rewrite calls_app, Hf, IH.
Qed.

Lemma drawn_unroll {A} (p : element -> bool) (f : nat -> A -> list event) :
  (forall i x, drawn p (f i x) = []) ->
  forall xs i, drawn p (unroll f i xs) = [].
Proof.
  intros Hf xs. induction xs as [|x xs IH]; intros i; simpl; [reflexivity|].
  now rewrite drawn_app, Hf, IH.
Qed.

Lemma calls_flights_panel (r : SearchResult.t) : calls (trace (flights_panel r)) = [].
Proof.
  rewrite flights_panel_eq. unfold trace, fst.
  assert (H : calls (unroll flight_card_events 0 (SearchResult.flights r)) = [])
    by now apply calls_unroll.
  revert H. generalize (unroll flight_card_events 0 (SearchResult.flights r)).
  intros cards H. now destruct (SearchResult.flights r).
Qed.

Lemma calls_hotels_panel (r : SearchResult.t) : calls (trace (hotels_panel r)) = [].
Proof.
  rewrite hotels_panel_eq. unfold trace, fst.
  assert (H : calls (unroll hotel_card_events 0 (SearchResult.hotels r)) = [])
    by now apply calls_unroll.
  revert H. generalize (unroll hotel_card_events 0 (SearchResult.hotels r)).
  intros cards H. now destruct (SearchResult.hotels r).
Qed.

Lemma drawn_skip (p : element -> bool) (path : list frame) (e : element)
    (t : list event) :
  p e = false -> drawn p (Draw path e :: t) = drawn p t.
Proof. intros H. unfold drawn. simpl. now rewrite H. Qed.

Lemma drawn_flights_panel (p : element -> bool) (r : SearchResult.t) :
  above_panels p -> drawn p (trace (flights_panel r)) = [].
Proof.
  intros (Hc & Hm & Hs & Hi & Hn & Hl).
  assert (Hcards : drawn p (unroll flight_card_events 0 (SearchResult.flights r)) = []).
  { apply drawn_unroll. intros i x. unfold flight_card_events.
    now rewrite !drawn_skip. }
  rewrite flights_panel_eq. unfold trace, fst. rewrite drawn_skip by apply Hs.
  revert Hcards. generalize (unroll flight_card_events 0 (SearchResult.flights r)).
  intros cards Hcards. destruct (SearchResult.flights r).
  - now rewrite drawn_skip.
  - now rewrite drawn_skip.
Qed.

Lemma drawn_hotels_panel (p : element -> bool) (r : SearchResult.t) :
  above_panels p -> drawn p (trace (hotels_panel r)) = [].
Proof.
  intros (Hc & Hm & Hs & Hi & Hn & Hl).
  assert (Hcards : drawn p (unroll hotel_card_events 0 (SearchResult.hotels r)) = []).
  { apply drawn_unroll. intros i x. unfold hotel_card_events.
    now rewrite !drawn_skip. }
  rewrite hotels_panel_eq. unfold trace, fst. rewrite drawn_skip by apply Hs.
  revert Hcards. generalize (unroll hotel_card_events 0 (SearchResult.hotels r)).
  intros cards Hcards. destruct (SearchResult.hotels r).
  - now rewrite drawn_skip.
  - now rewrite drawn_skip.
Qed.


(** *** The search and the submission *)

Lemma mode_cases (mode : string) :
  In mode search_modes ->
  mode = mode_complete \/ mode = mode_flights \/ mode = mode_hotels.
Proof. intros [H | [H | [H | []]]]; auto. Qed.

Lemma entry_point_modes (w : Widgets) :
  (search_mode w = mode_complete ->
   entry_point w = Some (Call_complete_travel_search (flight_req w) (hotel_req w))) /\
  (search_mode w = mode_flights ->
   entry_point w = Some (Call_search_flights_endpoint (flight_req w))) /\
  (search_mode w = mode_hotels ->
   entry_point w = Some (Call_search_hotels_endpoint (hotel_req w))).
Proof. unfold entry_point. repeat split; intros ->; reflexivity. Qed.

Lemma entry_point_some (w : Widgets) (c : call) :
  entry_point w = Some c -> In (search_mode w) search_modes.
Proof.
  unfold entry_point, search_modes.
  destruct (String.eqb_spec (search_mode w) mode_complete) as [-> | _]; [simpl; auto|].
  destruct (String.eqb_spec (search_mode w) mode_flights) as [-> | _]; [simpl; auto|].
  destruct (String.eqb_spec (search_mode w) mode_hotels) as [-> | _]; [simpl; auto|].
  discriminate.
Qed.

Lemma run_search_eq (B : Backend) (w : Widgets) :
  run_search B w =
    match entry_point w with
    | None => ([], Ok PyNone)
    | Some c =>
        match invoke B c with
        | Ok v => ([Call c], Ok v)
        | Raise e =>
            ([Call c; Draw [] (error ("Search failed: " ++ exn_str e))], Ok PyNone)
        end
    end.
Proof.
  unfold run_search, entry_point, await.
  destruct (search_mode w =? mode_complete)%string;
  [|destruct (search_mode w =? mode_flights)%string;
    [|destruct (search_mode w =? mode_hotels)%string; [|reflexivity]]];
  unfold lift, emit, bind, try_except;
  match goal with |- context [invoke B ?c] => destruct (invoke B c) end;
  reflexivity.
Qed.

(** [run_search] never raises. *)
Lemma run_search_returns (B : Backend) (w : Widgets) :
  exists v, outcome (run_search B w) = Ok v.
Proof.
  rewrite run_search_eq. destruct (entry_point w) as [c|]; [|now exists PyNone].
  destruct (invoke B c) as [v|e]; [now exists v | now exists PyNone].
Qed.

Lemma on_submit_invalid (B : Backend) (w : Widgets) :
  origin w = EmptyString \/ destination w = EmptyString ->
  on_submit B w = ([Draw [] (error msg_validation)], Ok tt).
Proof.
  unfold on_submit. intros [H | H]; rewrite H; simpl; [reflexivity|].
  now rewrite orb_true_r.
Qed.

Lemma on_submit_valid (B : Backend) (w : Widgets) :
  origin w <> EmptyString -> destination w <> EmptyString ->
  on_submit B w =
    match entry_point w with
    | None => ([Draw [] (spinner msg_spinner)], Ok tt)
    | Some c =>
        match invoke B c with
        | Ok (Result r) =>
            (Draw [] (spinner msg_spinner) :: Call c ::
               trace (render (search_mode w) r),
             outcome (render (search_mode w) r))
        | Ok _ => ([Draw [] (spinner msg_spinner); Call c], Ok tt)
        | Raise e =>
            ([Draw [] (spinner msg_spinner); Call c;
              Draw [Spinner] (error ("Search failed: " ++ exn_str e))], Ok tt)
        end
    end.
Proof.
  intros Ho Hd. apply PyStrFacts.truthy_true in Ho, Hd.
  unfold on_submit. rewrite Ho, Hd, run_search_eq. cbn [negb orb].
  destruct (entry_point w) as [c|]; [|reflexivity].
  destruct (invoke B c) as [[| |r]|e]; try reflexivity.
  unfold within, st, emit. cbn [fst snd map enter].
  rewrite !bind_ok. reflexivity.
Qed.

Lemma render_ok (mode : string) (r : SearchResult.t) :
  In mode search_modes ->
  outcome (render mode r) = Ok tt /\ calls (trace (render mode r)) = [].
Proof.
  intros H. pose proof (calls_flights_panel r) as Hf.
  pose proof (calls_hotels_panel r) as Hh.
  apply mode_cases in H as [-> | [-> | ->]];
    [rewrite render_complete | rewrite render_flights | rewrite render_hotels];
    (split; [reflexivity|]); unfold trace in *; cbn [fst calls];
    rewrite !calls_app, !calls_enter, ?Hf, ?Hh; reflexivity.
Qed.

(** The entry points that a run of the script invokes. *)
Lemma script_calls (B : Backend) (w : Widgets) :
  calls (trace (script B w)) =
    if submit_button w && PyStr.truthy (origin w) && PyStr.truthy (destination w)
    then match entry_point w with Some c => [c] | None => [] end
    else [].
Proof.
  unfold script. destruct (submit_button w); [|reflexivity]. cbn [andb].
  destruct (PyStr.truthy (origin w)) eqn:Ho.
  - destruct (PyStr.truthy (destination w)) eqn:Hd.
    + apply PyStrFacts.truthy_true in Ho, Hd. rewrite (on_submit_valid B w Ho Hd).
      destruct (entry_point w) as [c|] eqn:Hc; [|reflexivity].
      destruct (invoke B c) as [[| |r]|e]; try reflexivity.
      unfold trace at 1, fst. simpl.
      now rewrite (proj2 (render_ok _ r (entry_point_some w c Hc))).
    + apply PyStrFacts.truthy_false in Hd. rewrite on_submit_invalid; auto.
  - apply PyStrFacts.truthy_false in Ho. rewrite on_submit_invalid; auto.
Qed.

Lemma script_called (B : Backend) (w : Widgets) (c : call) :
  In c (calls (trace (script B w))) ->
  submit_button w = true /\ origin w <> EmptyString /\
  destination w <> EmptyString /\ entry_point w = Some c.
Proof.
  rewrite script_calls.
  destruct (submit_button w); [|intros []].
  destruct (PyStr.truthy (origin w)) eqn:Ho; [|intros []].
  destruct (PyStr.truthy (destination w)) eqn:Hd; [|intros []].
  apply PyStrFacts.truthy_true in Ho, Hd. simpl.
  destruct (entry_point w) as [c'|]; [|intros []].
  intros [-> | []]. auto.
Qed.

(** The script never raises and never invokes two entry points. *)
Lemma script_at_most_one_call (B : Backend) (w : Widgets) :
  length (calls (trace (script B w))) <= 1.
Proof.
  rewrite script_calls.
  destruct (submit_button w && PyStr.truthy (origin w) && PyStr.truthy (destination w));
    [|simpl; lia].
  destruct (entry_point w); simpl; lia.
Qed.


(** *** What a result draws *)

Lemma drawn_keep (p : element -> bool) (path : list frame) (e : element)
    (t : list event) :
  p e = true -> drawn p (Draw path e :: t) = e :: drawn p t.
Proof. intros H. unfold drawn. simpl. now rewrite H. Qed.

Lemma above_panels_tabs : above_panels is_tabs.
Proof. repeat split. Qed.

Lemma above_panels_download : above_panels is_download.
Proof. repeat split. Qed.

Lemma drawn_tabs_render (r : SearchResult.t) :
  drawn is_tabs (trace (render mode_flights r)) = [tabs tabs_flights] /\
  drawn is_tabs (trace (render mode_hotels r)) = [tabs tabs_hotels] /\
  drawn is_tabs (trace (render mode_complete r)) = [tabs tabs_complete].
Proof.
  pose proof (drawn_flights_panel is_tabs r above_panels_tabs) as Hf.
  pose proof (drawn_hotels_panel is_tabs r above_panels_tabs) as Hh.
  rewrite render_flights, render_hotels, render_complete.
  unfold trace in *. cbn [fst].
  rewrite !drawn_keep, !drawn_app, !drawn_enter, Hf, Hh by reflexivity.
  repeat split.
Qed.

Lemma drawn_download_render (r : SearchResult.t) :
  drawn is_download (trace (render mode_flights r)) = [] /\
  drawn is_download (trace (render mode_hotels r)) = [] /\
  drawn is_download (trace (render mode_complete r)) =
    [download_button "📥 Download Itinerary" (SearchResult.itinerary r) "itinerary.md"].
Proof.
  pose proof (drawn_flights_panel is_download r above_panels_download) as Hf.
  pose proof (drawn_hotels_panel is_download r above_panels_download) as Hh.
  rewrite render_flights, render_hotels, render_complete.
  unfold trace in *. cbn [fst].
  rewrite !drawn_skip, !drawn_app, !drawn_enter, Hf, Hh by reflexivity.
  repeat split.
Qed.

(** The content of the tabs that hold the two panels. *)
Lemma tab_content (r : SearchResult.t) :
  in_tab 0 (trace (render mode_flights r)) = shown (trace (flights_panel r)) /\
  in_tab 0 (trace (render mode_hotels r)) = shown (trace (hotels_panel r)) /\
  in_tab 0 (trace (render mode_complete r)) = shown (trace (flights_panel r)) /\
  in_tab 1 (trace (render mode_complete r)) = shown (trace (hotels_panel r)).
Proof.
  rewrite render_flights, render_hotels, render_complete.
  unfold trace. cbn [fst in_tab].
  rewrite !in_tab_app, !in_tab_enter. cbn [Nat.eqb app in_tab].
  rewrite !app_nil_r. repeat split.
Qed.


(** *** The properties of the specification *)

(** The call of a submission that passes the presence check, by mode. *)
Lemma dispatch_by_mode (B : Backend) (w : Widgets) :
  submit_button w = true ->
  origin w <> EmptyString -> destination w <> EmptyString ->
  (search_mode w = mode_flights ->
   calls (trace (script B w)) = [Call_search_flights_endpoint (flight_req w)]) /\
  (search_mode w = mode_hotels ->
   calls (trace (script B w)) = [Call_search_hotels_endpoint (hotel_req w)]) /\
  (search_mode w = mode_complete ->
   calls (trace (script B w)) =
     [Call_complete_travel_search (flight_req w) (hotel_req w)]).
Proof.
  intros Hs Ho Hd. apply PyStrFacts.truthy_true in Ho, Hd.
  destruct (entry_point_modes w) as (Hc & Hf & Hh).
  rewrite script_calls, Hs, Ho, Hd. cbn [andb].
  repeat split; intros H; [rewrite (Hf H) | rewrite (Hh H) | rewrite (Hc H)];
    reflexivity.
Qed.

(** C1, as the script has it: a submission whose origin and destination
    are not empty invokes exactly one entry point, the one of its mode:
    [search_flights_endpoint] with the flight request alone for
    "Flights Only", [search_hotels_endpoint] with the hotel request
    alone for "Hotels Only", [complete_travel_search] with both for the
    combined mode; and no run invokes more than one. *)
Theorem one_entry_point_per_dispatch (B : Backend) (w : Widgets) :
  submit_button w = true ->
  origin w <> EmptyString -> destination w <> EmptyString ->
  (search_mode w = mode_flights ->
   calls (trace (script B w)) = [Call_search_flights_endpoint (flight_req w)]) /\
  (search_mode w = mode_hotels ->
   calls (trace (script B w)) = [Call_search_hotels_endpoint (hotel_req w)]) /\
  (search_mode w = mode_complete ->
   calls (trace (script B w)) =
     [Call_complete_travel_search (flight_req w) (hotel_req w)]) /\
  (forall B' w', length (calls (trace (script B' w'))) <= 1).
Proof.
  intros Hs Ho Hd.
  destruct (dispatch_by_mode B w Hs Ho Hd) as (Hf & Hh & Hc).
  repeat split; try assumption.
  apply script_at_most_one_call.
Qed.

Lemma one_entry_point_per_dispatch_witness :
  calls (trace (script (answering (Ok PyNone))
                  (submitted mode_flights "ATL" "LAX" true ""))) =
    [Call_search_flights_endpoint
       (flight_req (submitted mode_flights "ATL" "LAX" true ""))].
Proof.
  apply (one_entry_point_per_dispatch (answering (Ok PyNone))
           (submitted mode_flights "ATL" "LAX" true ""));
    [reflexivity | discriminate | discriminate | reflexivity].
Defined.

(** C1 fails as stated: a submission in the mode "Flights Only" with an
    empty origin invokes no entry point. *)
Lemma one_entry_point_counterexample :
  submit_button (submitted mode_flights "" "LAX" true "") = true /\
  In (search_mode (submitted mode_flights "" "LAX" true "")) search_modes /\
  calls (trace (script (answering (Ok (Result nothing_found)))
                  (submitted mode_flights "" "LAX" true ""))) = [].
Proof.
  split; [reflexivity | split; [|reflexivity]].
  right; left; reflexivity.
Qed.

(** C2: the search of a submission is run, under the spinner, if and
    only if its origin and its destination are both not empty, and
    then, the mode being one of the options, the backend is called;
    when one of them is empty the validation error is all that the
    submission does. *)
Theorem validation_gates_dispatch (B : Backend) (w : Widgets) :
  submit_button w = true ->
  (In (Draw [] (spinner msg_spinner)) (trace (script B w)) <->
   origin w <> EmptyString /\ destination w <> EmptyString) /\
  (In (search_mode w) search_modes ->
   (calls (trace (script B w)) <> [] <->
    origin w <> EmptyString /\ destination w <> EmptyString)) /\
  (origin w = EmptyString \/ destination w = EmptyString ->
   script B w = ([Draw [] (error msg_validation)], Ok tt)).
Proof.
  intros Hs. split; [|split].
  - unfold script. rewrite Hs. rewrite <- !PyStrFacts.truthy_true.
    destruct (PyStr.truthy (origin w)) eqn:Ho;
      [destruct (PyStr.truthy (destination w)) eqn:Hd|].
    + apply PyStrFacts.truthy_true in Ho, Hd.
      rewrite (on_submit_valid B w Ho Hd). split; [auto|]. intros _.
      destruct (entry_point w) as [c|]; [|left; reflexivity].
      destruct (invoke B c) as [[| |r]|e]; left; reflexivity.
    + apply PyStrFacts.truthy_false in Hd. rewrite on_submit_invalid by auto.
      split; [|intros [_ H]; discriminate H].
      intros [H | []]. discriminate H.
    + apply PyStrFacts.truthy_false in Ho. rewrite on_submit_invalid by auto.
      split; [|intros [H _]; discriminate H].
      intros [H | []]. discriminate H.
  - intros Hm. rewrite script_calls, Hs. cbn [andb].
    rewrite <- !PyStrFacts.truthy_true.
    destruct (PyStr.truthy (origin w)), (PyStr.truthy (destination w));
      cbn [andb]; try (split; [congruence | intros [? ?]; congruence]).
    split; [auto|]. intros _.
    destruct (entry_point_modes w) as (Hc & Hf & Hh).
    apply mode_cases in Hm as [H | [H | H]];
      [rewrite (Hc H) | rewrite (Hf H) | rewrite (Hh H)]; discriminate.
  - intros H. unfold script. rewrite Hs. now apply on_submit_invalid.
Qed.

Lemma validation_gates_dispatch_witness :
  script (answering (Ok PyNone)) (submitted mode_hotels "ATL" "" true "") =
    ([Draw [] (error msg_validation)], Ok tt).
Proof.
  apply (validation_gates_dispatch (answering (Ok PyNone))
           (submitted mode_hotels "ATL" "" true ""));
    [reflexivity | right; reflexivity].
Defined.

(** C3: the hotel request that a submission constructs has the flight
    request's destination as its location when the checkbox is ticked,
    and the text of the hotel-location field when it is not; and the
    requests that reach the backend are the ones constructed. *)
Theorem hotel_location_follows_toggle (B : Backend) (w : Widgets) :
  (use_flight_destination w = true ->
   HotelRequest.location (hotel_req w) = FlightRequest.destination (flight_req w)) /\
  (use_flight_destination w = false ->
   HotelRequest.location (hotel_req w) = hotel_location_input w) /\
  (forall c, In c (calls (trace (script B w))) ->
     (forall hr, hotel_request_of c = Some hr -> hr = hotel_req w) /\
     (forall fr, flight_request_of c = Some fr -> fr = flight_req w)).
Proof.
  repeat split.
  - intros H. unfold hotel_req, location. now rewrite H.
  - intros H. unfold hotel_req, location. now rewrite H.
  - intros hr Hhr. apply script_called in H as (_ & _ & _ & Hc).
    unfold entry_point in Hc.
    destruct (search_mode w =? mode_complete)%string;
    [|destruct (search_mode w =? mode_flights)%string;
      [|destruct (search_mode w =? mode_hotels)%string; [|discriminate]]];
    injection Hc as <-; simpl in Hhr; congruence.
  - intros fr Hfr. apply script_called in H as (_ & _ & _ & Hc).
    unfold entry_point in Hc.
    destruct (search_mode w =? mode_complete)%string;
    [|destruct (search_mode w =? mode_flights)%string;
      [|destruct (search_mode w =? mode_hotels)%string; [|discriminate]]];
    injection Hc as <-; simpl in Hfr; congruence.
Qed.

Lemma hotel_location_follows_toggle_witness :
  HotelRequest.location (hotel_req (submitted mode_complete "ATL" "LAX" true "Venice")) = "LAX" /\
  HotelRequest.location (hotel_req (submitted mode_complete "ATL" "LAX" false "Venice")) = "Venice".
Proof.
  split.
  - apply (proj1 (hotel_location_follows_toggle (answering (Ok PyNone))
                    (submitted mode_complete "ATL" "LAX" true "Venice"))).
    reflexivity.
  - apply (proj1 (proj2 (hotel_location_follows_toggle (answering (Ok PyNone))
                    (submitted mode_complete "ATL" "LAX" false "Venice")))).
    reflexivity.
Defined.

(** C4: when the entry point that a submission invokes raises, the
    search catches the exception, shows "Search failed: " followed by
    its message, and returns [None]; the submission then draws nothing
    else, in particular no tabs, and ends normally. *)
Theorem backend_exception_is_reported (B : Backend) (w : Widgets)
    (c : call) (e : exn) :
  In c (calls (trace (script B w))) ->
  invoke B c = Raise e ->
  run_search B w =
    ([Call c; Draw [] (error ("Search failed: " ++ exn_str e))], Ok PyNone) /\
  script B w =
    ([Draw [] (spinner msg_spinner); Call c;
      Draw [Spinner] (error ("Search failed: " ++ exn_str e))], Ok tt) /\
  drawn is_tabs (trace (script B w)) = [].
Proof.
  intros Hin He. apply script_called in Hin as (Hs & Ho & Hd & Hc).
  assert (Hscript : script B w =
    ([Draw [] (spinner msg_spinner); Call c;
      Draw [Spinner] (error ("Search failed: " ++ exn_str e))], Ok tt)).
  { unfold script. rewrite Hs, (on_submit_valid B w Ho Hd), Hc, He. reflexivity. }
  repeat split.
  - rewrite run_search_eq, Hc, He. reflexivity.
  - exact Hscript.
  - rewrite Hscript. reflexivity.
Qed.

Lemma backend_exception_is_reported_witness :
  script (answering (Raise (Exn "TimeoutError" "timed out")))
         (submitted mode_complete "ATL" "LAX" true "") =
    ([Draw [] (spinner msg_spinner);
      Call (Call_complete_travel_search
              (flight_req (submitted mode_complete "ATL" "LAX" true ""))
              (hotel_req (submitted mode_complete "ATL" "LAX" true "")));
      Draw [Spinner] (error "Search failed: timed out")], Ok tt).
Proof.
  apply (backend_exception_is_reported
           (answering (Raise (Exn "TimeoutError" "timed out")))
           (submitted mode_complete "ATL" "LAX" true "")
           (Call_complete_travel_search
              (flight_req (submitted mode_complete "ATL" "LAX" true ""))
              (hotel_req (submitted mode_complete "ATL" "LAX" true "")))
           (Exn "TimeoutError" "timed out")).
  - left; reflexivity.
  - reflexivity.
Defined.


(** A truthy answer is drawn by [render], after the spinner and the call. *)
Lemma script_renders (B : Backend) (w : Widgets) (c : call) (r : SearchResult.t) :
  In c (calls (trace (script B w))) ->
  invoke B c = Ok (Result r) ->
  script B w =
    (Draw [] (spinner msg_spinner) :: Call c :: trace (render (search_mode w) r),
     Ok tt).
Proof.
  intros Hin Hr. apply script_called in Hin as (Hs & Ho & Hd & Hc).
  unfold script. rewrite Hs, (on_submit_valid B w Ho Hd), Hc, Hr.
  now rewrite (proj1 (render_ok _ r (entry_point_some w c Hc))).
Qed.

(** C7: in a mode that shows the flights tab, a result without flights
    draws in that tab the heading "Flight Options (0)" and the notice
    "No flights found.", and nothing else, so no card; likewise a
    result without hotels draws "Hotel Options (0)" and "No hotels
    found." in the hotels tab. *)
Theorem empty_results_are_announced (mode : string) (r : SearchResult.t) :
  (SearchResult.flights r = [] ->
   mode = mode_flights \/ mode = mode_complete ->
   in_tab 0 (trace (render mode r)) =
     [([], subheader "Flight Options (0)"); ([], info "No flights found.")] /\
   filter is_container (map snd (in_tab 0 (trace (render mode r)))) = []) /\
  (SearchResult.hotels r = [] ->
   (mode = mode_hotels ->
    in_tab 0 (trace (render mode r)) =
      [([], subheader "Hotel Options (0)"); ([], info "No hotels found.")]) /\
   (mode = mode_complete ->
    in_tab 1 (trace (render mode r)) =
      [([], subheader "Hotel Options (0)"); ([], info "No hotels found.")])).
Proof.
  destruct (tab_content r) as (Hf & Hh & Hcf & Hch).
  split.
  - intros Hempty Hmode.
    assert (Htab : in_tab 0 (trace (render mode r)) =
      [([], subheader "Flight Options (0)"); ([], info "No flights found.")]).
    { destruct Hmode as [-> | ->]; [rewrite Hf | rewrite Hcf];
        rewrite flights_panel_eq, Hempty; reflexivity. }
    split; [exact Htab | rewrite Htab; reflexivity].
  - intros Hempty. split; intros ->; [rewrite Hh | rewrite Hch];
      rewrite hotels_panel_eq, Hempty; reflexivity.
Qed.

Lemma empty_results_are_announced_witness :
  in_tab 0 (trace (render mode_flights nothing_found)) =
    [([], subheader "Flight Options (0)"); ([], info "No flights found.")] /\
  in_tab 1 (trace (render mode_complete nothing_found)) =
    [([], subheader "Hotel Options (0)"); ([], info "No hotels found.")].
Proof.
  split.
  - apply (proj1 (empty_results_are_announced mode_flights nothing_found));
      [reflexivity | left; reflexivity].
  - apply (proj2 (empty_results_are_announced mode_complete nothing_found));
      reflexivity.
Defined.

Lemma trace_pair {E A} (t : list E) (r : result A) : trace (t, r) = t.
Proof. reflexivity. Qed.

Lemma drawn_call (p : element -> bool) (c : call) (t : list event) :
  drawn p (Call c :: t) = drawn p t.
Proof. reflexivity. Qed.

(** The download buttons of a run: none, or the one of the combined mode. *)
Lemma script_download (B : Backend) (w : Widgets) :
  drawn is_download (trace (script B w)) = [] \/
  search_mode w = mode_complete /\
  exists data,
    drawn is_download (trace (script B w)) =
      [download_button "📥 Download Itinerary" data "itinerary.md"].
Proof.
  unfold script. destruct (submit_button w); [|now left].
  destruct (PyStr.truthy (origin w)) eqn:Ho;
    [destruct (PyStr.truthy (destination w)) eqn:Hd|].
  - apply PyStrFacts.truthy_true in Ho, Hd.
    rewrite (on_submit_valid B w Ho Hd).
    destruct (entry_point w) as [c|] eqn:Hc; [|now left].
    destruct (invoke B c) as [[| |r]|e]; try (now left).
    rewrite trace_pair, drawn_skip, drawn_call by reflexivity.
    destruct (drawn_download_render r) as (Df & Dh & Dc).
    apply entry_point_some, mode_cases in Hc as [Hm | [Hm | Hm]]; rewrite Hm.
    + right. split; [reflexivity|]. now exists (SearchResult.itinerary r).
    + now left.
    + now left.
  - apply PyStrFacts.truthy_false in Hd. rewrite on_submit_invalid by auto. now left.
  - apply PyStrFacts.truthy_false in Ho. rewrite on_submit_invalid by auto. now left.
Qed.

(** C8: a result is drawn under one tab bar, of 2 tabs in the modes
    "Flights Only" and "Hotels Only" and of 4 tabs in the combined
    mode; the combined mode draws one download button, for the
    itinerary text under the file name [itinerary.md], and the other
    modes none; and whatever a submission does, a download button is
    only drawn in the combined mode, with that file name. *)
Theorem tabs_and_download_by_mode (r : SearchResult.t) :
  (drawn is_tabs (trace (render mode_flights r)) =
     [tabs ["✈️ Flights"; "🏆 AI Recommendation"]] /\
   drawn is_download (trace (render mode_flights r)) = []) /\
  (drawn is_tabs (trace (render mode_hotels r)) =
     [tabs ["🏨 Hotels"; "🏆 AI Recommendation"]] /\
   drawn is_download (trace (render mode_hotels r)) = []) /\
  (drawn is_tabs (trace (render mode_complete r)) =
     [tabs ["✈️ Flights"; "🏨 Hotels"; "🏆 AI Recommendations"; "📅 Itinerary"]] /\
   drawn is_download (trace (render mode_complete r)) =
     [download_button "📥 Download Itinerary" (SearchResult.itinerary r)
        "itinerary.md"]) /\
  (forall B w e,
     In e (drawn is_download (trace (script B w))) ->
     search_mode w = mode_complete /\
     exists data, e = download_button "📥 Download Itinerary" data "itinerary.md").
Proof.
  destruct (drawn_tabs_render r) as (Tf & Th & Tc).
  destruct (drawn_download_render r) as (Df & Dh & Dc).
  split; [|split; [|split]]; [split; assumption .. |].
  intros B w e Hin.
  destruct (script_download B w) as [Hnone | [Hm [data Hone]]].
  - rewrite Hnone in Hin. destruct Hin.
  - rewrite Hone in Hin. destruct Hin as [<- | []].
    split; [exact Hm | now exists data].
Qed.

Lemma tabs_and_download_by_mode_witness :
  search_mode (submitted mode_complete "ATL" "LAX" true "") = mode_complete /\
  exists data,
    download_button "📥 Download Itinerary" (Some "Stay home.") "itinerary.md" =
    download_button "📥 Download Itinerary" data "itinerary.md".
Proof.
  apply (proj2 (proj2 (proj2 (tabs_and_download_by_mode nothing_found)))
           (answering (Ok (Result nothing_found)))
           (submitted mode_complete "ATL" "LAX" true "")).
  vm_compute. left; reflexivity.
Defined.

(** C9, as the script has it: the presence check on origin and
    destination is made in every mode.  In the mode "Hotels Only" the
    one call made carries the hotel request alone: the origin never
    reaches the backend, and the destination reaches it exactly when
    the checkbox is ticked, as the hotel location.  The hotel location
    is not checked: with the checkbox cleared and the field left blank,
    the hotel request that is dispatched has the empty location. *)
Theorem validation_ignores_mode_and_location (B : Backend) (w : Widgets) :
  submit_button w = true ->
  (origin w = EmptyString \/ destination w = EmptyString ->
   script B w = ([Draw [] (error msg_validation)], Ok tt)) /\
  (origin w <> EmptyString -> destination w <> EmptyString ->
   search_mode w = mode_hotels ->
   calls (trace (script B w)) =
     [Call_search_hotels_endpoint
        (HotelRequest.make (location w) (str_date (check_in_date w))
           (str_date (check_out_date w)))] /\
   (forall o, o <> EmptyString ->
      calls (trace (script B (with_origin o w))) = calls (trace (script B w))) /\
   (use_flight_destination w = false ->
    forall d, d <> EmptyString ->
      calls (trace (script B (with_destination d w))) = calls (trace (script B w))) /\
   (use_flight_destination w = true -> location w = destination w)) /\
  (origin w <> EmptyString -> destination w <> EmptyString ->
   use_flight_destination w = false -> hotel_location_input w = EmptyString ->
   search_mode w = mode_hotels \/ search_mode w = mode_complete ->
   exists c hr,
     calls (trace (script B w)) = [c] /\
     hotel_request_of c = Some hr /\
     HotelRequest.location hr = EmptyString).
Proof.
  intros Hs. split; [|split].
  - intros H. unfold script. rewrite Hs. now apply on_submit_invalid.
  - intros Ho Hd Hm.
    assert (Hcalls : forall w', submit_button w' = true ->
              origin w' <> EmptyString -> destination w' <> EmptyString ->
              search_mode w' = mode_hotels ->
              calls (trace (script B w')) = [Call_search_hotels_endpoint (hotel_req w')]).
    { intros w' Hs' Ho' Hd' Hm'.
      now apply (dispatch_by_mode B w' Hs' Ho' Hd'). }
    split; [|split; [|split]].
    + now apply Hcalls.
    + intros o Hne. rewrite (Hcalls w), (Hcalls (with_origin o w)) by assumption.
      reflexivity.
    + intros Hoff d Hne.
      rewrite (Hcalls w), (Hcalls (with_destination d w)) by assumption.
      unfold hotel_req, location. simpl. now rewrite Hoff.
    + intros Hon. unfold location. now rewrite Hon.
  - intros Ho Hd Hoff Hblank Hm.
    assert (Hloc : HotelRequest.location (hotel_req w) = EmptyString).
    { unfold hotel_req, location. simpl. now rewrite Hoff. }
    destruct (dispatch_by_mode B w Hs Ho Hd) as (_ & Hh & Hc).
    destruct Hm as [Hm | Hm].
    + exists (Call_search_hotels_endpoint (hotel_req w)), (hotel_req w).
      rewrite (Hh Hm). auto.
    + exists (Call_complete_travel_search (flight_req w) (hotel_req w)), (hotel_req w).
      rewrite (Hc Hm). auto.
Qed.

Lemma validation_ignores_mode_and_location_witness :
  exists c hr,
    calls (trace (script (answering (Ok PyNone))
                    (submitted mode_hotels "ATL" "LAX" false ""))) = [c] /\
    hotel_request_of c = Some hr /\
    HotelRequest.location hr = EmptyString.
Proof.
  apply (validation_ignores_mode_and_location (answering (Ok PyNone))
           (submitted mode_hotels "ATL" "LAX" false ""));
    try reflexivity; try discriminate.
  left; reflexivity.
Defined.

(** C9 fails as stated: in the mode "Hotels Only" with the checkbox
    ticked, the destination is passed to [search_hotels_endpoint] as
    the location of the hotel request, and another destination gives
    another call. *)
Lemma hotels_only_counterexample :
  search_mode (submitted mode_hotels "ATL" "LAX" true "") = mode_hotels /\
  destination (submitted mode_hotels "ATL" "LAX" true "") = "LAX" /\
  calls (trace (script (answering (Ok PyNone))
                  (submitted mode_hotels "ATL" "LAX" true ""))) =
    [Call_search_hotels_endpoint
       (HotelRequest.make "LAX" "2026-11-05" "2026-11-12")] /\
  calls (trace (script (answering (Ok PyNone))
                  (with_destination "JFK" (submitted mode_hotels "ATL" "LAX" true "")))) <>
  calls (trace (script (answering (Ok PyNone))
                  (submitted mode_hotels "ATL" "LAX" true ""))).
Proof.
  split; [reflexivity | split; [reflexivity | split; [reflexivity|]]].
  vm_compute. discriminate.
Qed.

(** C10: what the invoked entry point returns is tested for truth, not
    compared with [None]: after any falsy answer the submission shows
    the spinner, makes the call and does nothing more, so it draws no
    tabs, no error and no download; after a truthy one it draws the
    tabs. *)
Theorem rendering_gated_on_truthiness (B : Backend) (w : Widgets)
    (c : call) (v : value) :
  In c (calls (trace (script B w))) ->
  invoke B c = Ok v ->
  (truthy v = false ->
   script B w = ([Draw [] (spinner msg_spinner); Call c], Ok tt) /\
   drawn is_tabs (trace (script B w)) = [] /\
   drawn is_error (trace (script B w)) = [] /\
   drawn is_download (trace (script B w)) = []) /\
  (truthy v = true -> drawn is_tabs (trace (script B w)) <> []).
Proof.
  intros Hin Hv. split.
  - intros Hfalsy. apply script_called in Hin as (Hs & Ho & Hd & Hc).
    assert (Hscript : script B w = ([Draw [] (spinner msg_spinner); Call c], Ok tt)).
    { unfold script. rewrite Hs, (on_submit_valid B w Ho Hd), Hc, Hv.
      destruct v; [reflexivity | reflexivity | discriminate Hfalsy]. }
    rewrite Hscript. repeat split.
  - intros Htruthy. destruct v as [| |r]; try discriminate Htruthy.
    rewrite (script_renders B w c r Hin Hv), trace_pair.
    rewrite drawn_skip, drawn_call by reflexivity.
    apply script_called in Hin as (_ & _ & _ & Hc).
    destruct (drawn_tabs_render r) as (Tf & Th & Tc).
    apply entry_point_some, mode_cases in Hc as [-> | [-> | ->]];
      [rewrite Tc | rewrite Tf | rewrite Th]; discriminate.
Qed.

Lemma rendering_gated_on_truthiness_witness :
  script (answering (Ok Falsy)) (submitted mode_hotels "ATL" "LAX" true "") =
    ([Draw [] (spinner msg_spinner);
      Call (Call_search_hotels_endpoint
              (hotel_req (submitted mode_hotels "ATL" "LAX" true "")))], Ok tt).
Proof.
  apply (rendering_gated_on_truthiness (answering (Ok Falsy))
           (submitted mode_hotels "ATL" "LAX" true "")
           (Call_search_hotels_endpoint
              (hotel_req (submitted mode_hotels "ATL" "LAX" true "")))
           Falsy).
  - left; reflexivity.
  - reflexivity.
  - reflexivity.
Defined.

End PlannerFacts.

(** ** Runs of the diagnostics script *)

Module DebugAIRuns.
Import Script DebugAI DebugAIReading.

Ltac each_answer W api_key :=
  destruct (new_LLM W model_name api_key) as [[]|?e];
  [destruct (new_Agent W) as [[]|?e];
   [destruct (new_Task W) as [[]|?e];
    [destruct (new_Crew W) as [[]|?e];
     [destruct (kickoff W) as [?answer|?e]|]|]|]|].

Lemma check_api_key_returns (api_key : option string) :
  outcome (check_api_key api_key) = Ok tt /\
  framework_calls (trace (check_api_key api_key)) = [] /\
  forall code, ~ In (Exit code) (trace (check_api_key api_key)).
Proof.
  destruct api_key as [key|]; [|repeat split; cbn; intuition discriminate].
  destruct key as [|c key]; [repeat split; cbn; intuition discriminate|].
  rewrite DebugAIFacts.check_api_key_set by discriminate.
  destruct (PyStr.contains placeholder (String c key));
    [|destruct (PyStr.len (String c key) <? min_length)];
    repeat split; cbn; intuition discriminate.
Qed.

Lemma framework_calls_test_connection (W : World) (api_key : option string) :
  framework_calls (trace (test_connection W api_key)) =
    firstn (S (succeeded (answers W api_key))) (connection_steps api_key).
Proof.
  unfold test_connection, answers, print, lift, emit, try_except, bind.
  each_answer W api_key; reflexivity.
Qed.

(** X1: the steps of the connection test are attempted in the order LLM,
    Agent, Task, Crew, kickoff, each at most once, up to and including
    the first one that raises; [check_api_key] makes none of them. *)
Theorem connection_steps_until_first_failure (W : World) (api_key : option string) :
  framework_calls (trace (test_connection W api_key)) =
    firstn (S (succeeded (answers W api_key))) (connection_steps api_key) /\
  framework_calls (trace (check_api_key api_key)) = [].
Proof.
  split; [apply framework_calls_test_connection | apply check_api_key_returns].
Qed.

(** X2: when every step succeeds, the run of the connection test is the five
    calls in order, then the line "SUCCESS! Result from AI: " with the
    text of the result, and no failure line. *)
Theorem success_is_reported (W : World) (api_key : option string) (answer : string) :
  new_LLM W model_name api_key = Ok tt -> new_Agent W = Ok tt ->
  new_Task W = Ok tt -> new_Crew W = Ok tt -> kickoff W = Ok answer ->
  test_connection W api_key =
    ([Prints (PyStr.nl ++ "Testing CrewAI / Gemini Connection...");
      Prints ("Initializing LLM with model: " ++ model_name);
      LLM model_name api_key;
      Agent "Test Agent" "Verify API connection" "I am a test agent.";
      Task "Reply with exactly three words: 'Connection is working'."
           "A simple confirmation phrase.";
      Crew;
      Prints "Starting Crew execution...";
      Kickoff;
      Prints (PyStr.nl ++ "SUCCESS! Result from AI: " ++ answer)], Ok tt).
Proof.
  intros H1 H2 H3 H4 H5.
  unfold test_connection, print, lift, emit, try_except, bind.
  rewrite H1, H2, H3, H4, H5. reflexivity.
Qed.

Lemma success_is_reported_witness :
  outcome (test_connection (world_ok (Some key_plausible)) (Some key_plausible)) = Ok tt.
Proof.
  rewrite (success_is_reported (world_ok (Some key_plausible)) (Some key_plausible)
             "Connection is working"); reflexivity.
Defined.

Ltac split_before :=
  first [ eexists [_; _; _]; split; [reflexivity|]
        | eexists [_; _; _; _]; split; [reflexivity|]
        | eexists [_; _; _; _; _]; split; [reflexivity|]
        | eexists [_; _; _; _; _; _]; split; [reflexivity|]
        | eexists [_; _; _; _; _; _; _; _]; split; [reflexivity|] ].

(** X3: when a step raises, the connection test stops there and ends with
    the three lines of the failure report, which carry the message and
    the class name of that exception; all it printed before are lines
    of progress, and the script ends normally. *)
Theorem failure_is_reported (W : World) (api_key : option string) (e : exn) :
  first_failure (answers W api_key) = Some e ->
  exists before,
    test_connection W api_key =
      ((before ++
        [Prints (PyStr.nl ++ "FAILURE! Error details:");
         Prints (exn_str e);
         Prints ("Error Type: " ++ exn_type e)])%list, Ok tt) /\
    forall line, In (Prints line) before -> In line progress_lines.
Proof.
  unfold test_connection, answers, print, lift, emit, try_except, bind.
  each_answer W api_key; cbn [first_failure forget]; intros H;
    try discriminate H; injection H as <-; split_before;
    intros line Hin; cbn [In] in Hin; unfold progress_lines;
    repeat (destruct Hin as [Hin|Hin];
            [first [discriminate Hin | injection Hin as <-; cbn [In]; tauto]|]);
    destruct Hin.
Qed.

Lemma failure_is_reported_witness :
  exists before,
    test_connection (world_failing 4 (Exn "AuthenticationError" "API key not valid") None) None =
      ((before ++
        [Prints (PyStr.nl ++ "FAILURE! Error details:");
         Prints "API key not valid";
         Prints ("Error Type: " ++ "AuthenticationError")])%list, Ok tt) /\
    forall line, In (Prints line) before -> In line progress_lines.
Proof.
  apply (failure_is_reported
           (world_failing 4 (Exn "AuthenticationError" "API key not valid") None)
           None (Exn "AuthenticationError" "API key not valid")).
  reflexivity.
Defined.

Lemma test_connection_never_exits (W : World) (api_key : option string) :
  outcome (test_connection W api_key) = Ok tt /\
  forall code, ~ In (Exit code) (trace (test_connection W api_key)).
Proof.
  unfold test_connection, print, lift, emit, try_except, bind.
  each_answer W api_key; (split; [reflexivity|]);
    intros code Hin; cbn in Hin;
    repeat (destruct Hin as [Hin|Hin]; [discriminate Hin|]); exact Hin.
Qed.

Lemma main_with_framework (W : World) :
  import_crewai W = None ->
  main W =
    ((trace (check_api_key (getenv_GOOGLE_API_KEY W)) ++
      trace (test_connection W (getenv_GOOGLE_API_KEY W)))%list, Ok tt).
Proof.
  intros Himp. unfold main. rewrite Himp.
  destruct (check_api_key_returns (getenv_GOOGLE_API_KEY W)) as (Hc & _).
  destruct (test_connection_never_exits W (getenv_GOOGLE_API_KEY W)) as (Ht & _).
  unfold bind, trace, outcome in *.
  destruct (check_api_key (getenv_GOOGLE_API_KEY W)) as [t1 r1].
  destruct (test_connection W (getenv_GOOGLE_API_KEY W)) as [t2 r2].
  cbn in *. subst. reflexivity.
Qed.

(** X4: the script exits, with status 1, exactly when the framework cannot
    be imported, and then it has only printed the import error: it
    checks no key and calls nothing.  On every other path, also after
    a failed connection test, it runs to its end without [sys.exit]. *)
Theorem exit_only_without_framework (W : World) :
  (forall e, import_crewai W = Some e ->
     main W = ([Prints ("ImportError: " ++ exn_str e); Exit 1], Ok tt)) /\
  (import_crewai W = None ->
     outcome (main W) = Ok tt /\ forall code, ~ In (Exit code) (trace (main W))).
Proof.
  split.
  - intros e He. unfold main. rewrite He. reflexivity.
  - intros Himp. rewrite (main_with_framework W Himp). split; [reflexivity|].
    intros code Hin. unfold trace at 1 in Hin. cbn [fst] in Hin.
    apply in_app_or in Hin as [Hin | Hin].
    + now apply (proj2 (proj2 (check_api_key_returns (getenv_GOOGLE_API_KEY W))) code).
    + now apply (proj2 (test_connection_never_exits W (getenv_GOOGLE_API_KEY W)) code).
Qed.

Lemma exit_only_without_framework_witness :
  main (world_without_crewai (Exn "ModuleNotFoundError" "No module named 'crewai'")
          (Some key_plausible)) =
    ([Prints "ImportError: No module named 'crewai'"; Exit 1], Ok tt) /\
  outcome (main (world_failing 0 (Exn "ValueError" "bad key") None)) = Ok tt.
Proof.
  split.
  - apply (proj1 (exit_only_without_framework
             (world_without_crewai (Exn "ModuleNotFoundError" "No module named 'crewai'")
                (Some key_plausible)))
             (Exn "ModuleNotFoundError" "No module named 'crewai'")).
    reflexivity.
  - apply (proj2 (exit_only_without_framework
             (world_failing 0 (Exn "ValueError" "bad key") None))).
    reflexivity.
Defined.

(** X5: whatever the script said about the key, it goes on to the
    connection test, and the first thing it asks of the framework is an
    LLM for the model "gemini/gemini-1.5-flash" with the key exactly as
    read from the environment. *)
Theorem key_reaches_framework_as_read (W : World) :
  import_crewai W = None ->
  hd_error (framework_calls (trace (main W))) =
    Some (LLM "gemini/gemini-1.5-flash" (getenv_GOOGLE_API_KEY W)).
Proof.
  intros Himp. rewrite (main_with_framework W Himp).
  unfold trace at 1. cbn [fst]. unfold framework_calls.
  rewrite filter_app.
  destruct (check_api_key_returns (getenv_GOOGLE_API_KEY W)) as (_ & Hnone & _).
  unfold framework_calls in Hnone. rewrite Hnone. cbn [app].
  pose proof (framework_calls_test_connection W (getenv_GOOGLE_API_KEY W)) as H.
  unfold framework_calls in H. rewrite H. reflexivity.
Qed.

Lemma key_reaches_framework_as_read_witness :
  hd_error (framework_calls (trace (main (world_ok (Some placeholder))))) =
    Some (LLM "gemini/gemini-1.5-flash" (Some placeholder)).
Proof.
  apply (key_reaches_framework_as_read (world_ok (Some placeholder))).
  reflexivity.
Defined.

Lemma len_take (n : nat) (s : string) :
  PyStr.len (PyStr.take n s) = Nat.min n (PyStr.len s).
Proof.
  revert n. induction s as [|c s IH]; intros n; simpl.
  - now rewrite Nat.min_0_r.
  - destruct (PyStr.is_continuation c) eqn:Hc; simpl.
    + rewrite Hc. apply IH.
    + destruct n as [|n]; simpl; [reflexivity | now rewrite Hc, IH].
Qed.

(** X6: what the check prints about a key of valid format depends only on
    the number of its characters and on its first six characters, which
    are all it shows of the key. *)
Theorem valid_key_shown_by_prefix (key key' : string) :
  PyStr.contains placeholder key = false -> min_length <= PyStr.len key ->
  PyStr.contains placeholder key' = false ->
  PyStr.len key' = PyStr.len key ->
  PyStr.take 6 key' = PyStr.take 6 key ->
  check_api_key (Some key') = check_api_key (Some key) /\
  PyStr.len (PyStr.take 6 key) = 6.
Proof.
  intros Hout Hlen Hout' Hlen' Htake.
  assert (Hne : forall k, min_length <= PyStr.len k -> k <> EmptyString)
    by (intros k H ->; vm_compute in H; lia).
  split.
  - rewrite !DebugAIFacts.check_api_key_set by (apply Hne; lia).
    rewrite Hout, Hout', Hlen'.
    apply Nat.ltb_ge in Hlen. rewrite Hlen.
    unfold msg_is_set, msg_valid_format. now rewrite Hlen', Htake.
  - rewrite len_take. unfold min_length in Hlen. lia.
Qed.

Lemma valid_key_shown_by_prefix_witness :
  check_api_key (Some key_plausible') = check_api_key (Some key_plausible).
Proof.
  apply (valid_key_shown_by_prefix key_plausible key_plausible');
    [reflexivity | vm_compute; lia | reflexivity | reflexivity | reflexivity].
Defined.

End DebugAIRuns.

(** ** What the planner draws *)

Module PlannerRuns.
Import Script Planner PlannerReading ScriptFacts PlannerFacts.

Lemma shown_flight_cards (fs : list SearchResult.flight) (i : nat) :
  cards (shown (unroll flight_card_events i fs)) =
    map (fun p => (fst p mod 2, flight_card (snd p))) (enumerate i fs) /\
  links (shown (unroll flight_card_events i fs)) = [] /\
  containers (shown (unroll flight_card_events i fs)) = length fs.
Proof.
  revert i. induction fs as [|f fs IH]; intros i; [repeat split|].
  destruct (IH (S i)) as (Hc & Hl & Hn).
  unfold containers in *. cbn [unroll flight_card_events app shown cards links
    enumerate map fst snd filter is_container length].
  rewrite Hc, Hl, Hn. repeat split.
Qed.

Lemma shown_hotel_cards (hs : list SearchResult.hotel) (i : nat) :
  cards (shown (unroll hotel_card_events i hs)) =
    map (fun p => (fst p mod 3, hotel_card (snd p))) (enumerate i hs) /\
  links (shown (unroll hotel_card_events i hs)) =
    map (fun p => (fst p mod 3, "View Deal", SearchResult.link (snd p))) (enumerate i hs) /\
  containers (shown (unroll hotel_card_events i hs)) = length hs.
Proof.
  revert i. induction hs as [|h hs IH]; intros i; [repeat split|].
  destruct (IH (S i)) as (Hc & Hl & Hn).
  unfold containers in *. cbn [unroll hotel_card_events app shown cards links
    enumerate map fst snd filter is_container length].
  rewrite Hc, Hl, Hn. repeat split.
Qed.

Lemma flights_panel_cards (r : SearchResult.t) :
  let content := shown (trace (flights_panel r)) in
  hd_error content =
    Some ([], subheader ("Flight Options (" ++
            PyStr.of_nat (length (SearchResult.flights r)) ++ ")")) /\
  cards content =
    map (fun p => (fst p mod 2, flight_card (snd p)))
        (enumerate 0 (SearchResult.flights r)) /\
  containers content = length (SearchResult.flights r).
Proof.
  rewrite flights_panel_eq, trace_pair.
  destruct (shown_flight_cards (SearchResult.flights r) 0) as (Hc & _ & Hn).
  revert Hc Hn. generalize (unroll flight_card_events 0 (SearchResult.flights r)).
  intros t Hc Hn. destruct (SearchResult.flights r) as [|f fs].
  - repeat split.
  - unfold containers in *. cbn [shown cards hd_error map snd filter is_container].
    rewrite Hc, Hn. repeat split.
Qed.

Lemma hotels_panel_cards (r : SearchResult.t) :
  let content := shown (trace (hotels_panel r)) in
  hd_error content =
    Some ([], subheader ("Hotel Options (" ++
            PyStr.of_nat (length (SearchResult.hotels r)) ++ ")")) /\
  cards content =
    map (fun p => (fst p mod 3, hotel_card (snd p)))
        (enumerate 0 (SearchResult.hotels r)) /\
  links content =
    map (fun p => (fst p mod 3, "View Deal", SearchResult.link (snd p)))
        (enumerate 0 (SearchResult.hotels r)) /\
  containers content = length (SearchResult.hotels r).
Proof.
  rewrite hotels_panel_eq, trace_pair.
  destruct (shown_hotel_cards (SearchResult.hotels r) 0) as (Hc & Hl & Hn).
  revert Hc Hl Hn. generalize (unroll hotel_card_events 0 (SearchResult.hotels r)).
  intros t Hc Hl Hn. destruct (SearchResult.hotels r) as [|h hs].
  - repeat split.
  - unfold containers in *.
    cbn [shown cards links hd_error map snd filter is_container].
    rewrite Hc, Hl, Hn. repeat split.
Qed.

(** X7: in the modes that show flights, the flights tab is headed by the
    number of flights and holds one card per flight, in the order of
    the result, the card of flight number [i] in column [i % 2] with
    the text of that flight. *)
Theorem one_card_per_flight (mode : string) (r : SearchResult.t) :
  mode = mode_flights \/ mode = mode_complete ->
  hd_error (in_tab 0 (trace (render mode r))) =
    Some ([], subheader ("Flight Options (" ++
            PyStr.of_nat (length (SearchResult.flights r)) ++ ")")) /\
  cards (in_tab 0 (trace (render mode r))) =
    map (fun p => (fst p mod 2, flight_card (snd p)))
        (enumerate 0 (SearchResult.flights r)) /\
  containers (in_tab 0 (trace (render mode r))) = length (SearchResult.flights r).
Proof.
  destruct (tab_content r) as (Hf & _ & Hc & _).
  intros [-> | ->]; [rewrite Hf | rewrite Hc]; apply flights_panel_cards.
Qed.

Lemma one_card_per_flight_witness :
  cards (in_tab 0 (trace (render mode_flights sample_result))) =
    [(0, flight_card (sample_flight "Delta"));
     (1, flight_card (sample_flight "United"));
     (0, flight_card (sample_flight "Alaska"))].
Proof.
  apply (one_card_per_flight mode_flights sample_result). left; reflexivity.
Defined.

(** X8: in the modes that show hotels, the hotels tab (the first in "Hotels
    Only", the second in the combined mode) is headed by the number of
    hotels and holds one card per hotel, in the order of the result,
    the card of hotel number [i] in column [i % 3] with the text of
    that hotel and a "View Deal" button that leads to its link. *)
Theorem one_card_per_hotel (mode : string) (r : SearchResult.t) :
  mode = mode_hotels \/ mode = mode_complete ->
  let content :=
    in_tab (if (mode =? mode_complete)%string then 1 else 0) (trace (render mode r)) in
  hd_error content =
    Some ([], subheader ("Hotel Options (" ++
            PyStr.of_nat (length (SearchResult.hotels r)) ++ ")")) /\
  cards content =
    map (fun p => (fst p mod 3, hotel_card (snd p)))
        (enumerate 0 (SearchResult.hotels r)) /\
  links content =
    map (fun p => (fst p mod 3, "View Deal", SearchResult.link (snd p)))
        (enumerate 0 (SearchResult.hotels r)) /\
  containers content = length (SearchResult.hotels r).
Proof.
  destruct (tab_content r) as (_ & Hh & _ & Hc).
  intros [-> | ->]; cbv zeta.
  - change (mode_hotels =? mode_complete)%string with false. cbv iota.
    rewrite Hh. apply hotels_panel_cards.
  - change (mode_complete =? mode_complete)%string with true. cbv iota.
    rewrite Hc. apply hotels_panel_cards.
Qed.

Lemma one_card_per_hotel_witness :
  links (in_tab 1 (trace (render mode_complete sample_result))) =
    [(0, "View Deal", "https://hotels.example/a");
     (1, "View Deal", "https://hotels.example/b");
     (2, "View Deal", "https://hotels.example/c");
     (0, "View Deal", "https://hotels.example/d")].
Proof.
  apply (one_card_per_hotel mode_complete sample_result). right; reflexivity.
Defined.





Lemma in_tab_beyond (i j : nat) (t : list event) :
  j <> i -> in_tab i (map (enter (Tab j)) t) = [].
Proof.
  intros H. rewrite in_tab_enter. apply Nat.eqb_neq in H. now rewrite H.
Qed.

(** X10: the combined mode: the third tab holds the flight analysis and then
    the hotel analysis, each in its expander; the fourth holds the
    heading, the itinerary and a download button whose data is that
    same itinerary; there is nothing in a tab beyond these four. *)
Theorem layout_of_complete_mode (r : SearchResult.t) :
  in_tab 2 (trace (render mode_complete r)) =
    [([], expander "✈️ AI Flight Analysis");
     ([Expander], markdown (Some (SearchResult.ai_flight_recommendation r)));
     ([], expander "🏨 AI Hotel Analysis");
     ([Expander], markdown (Some (SearchResult.ai_hotel_recommendation r)))] /\
  in_tab 3 (trace (render mode_complete r)) =
    [([], subheader "📅 Your AI-Generated Itinerary");
     ([], markdown (SearchResult.itinerary r));
     ([], download_button "📥 Download Itinerary" (SearchResult.itinerary r)
            "itinerary.md")] /\
  (forall i, 4 <= i -> in_tab i (trace (render mode_complete r)) = []).
Proof.
  rewrite render_complete, trace_pair. cbn [in_tab].
  rewrite !in_tab_app. repeat split.
  - rewrite (in_tab_beyond 2 0), (in_tab_beyond 2 1) by lia. reflexivity.
  - rewrite (in_tab_beyond 3 0), (in_tab_beyond 3 1) by lia. reflexivity.
  - intros i Hi. rewrite !in_tab_app.
    rewrite (in_tab_beyond i 0), (in_tab_beyond i 1) by lia.
    do 4 (destruct i as [|i]; [lia|]). reflexivity.
Qed.

(** X11: the single-domain modes: the second tab holds the analysis of the
    mode's own domain alone, in its expander, and there is nothing in
    a tab beyond the two: no analysis of the other domain, no
    itinerary. *)
Theorem layout_of_single_modes (r : SearchResult.t) :
  in_tab 1 (trace (render mode_flights r)) =
    [([], expander "✈️ AI Flight Analysis");
     ([Expander], markdown (Some (SearchResult.ai_flight_recommendation r)))] /\
  in_tab 1 (trace (render mode_hotels r)) =
    [([], expander "🏨 AI Hotel Analysis");
     ([Expander], markdown (Some (SearchResult.ai_hotel_recommendation r)))] /\
  (forall i, 2 <= i ->
     in_tab i (trace (render mode_flights r)) = [] /\
     in_tab i (trace (render mode_hotels r)) = []).
Proof.
  rewrite render_flights, render_hotels, !trace_pair. cbn [in_tab].
  rewrite !in_tab_app. repeat split.
  - rewrite (in_tab_beyond 1 0) by lia. reflexivity.
  - rewrite (in_tab_beyond 1 0) by lia. reflexivity.
  - rewrite !in_tab_app, (in_tab_beyond i 0) by lia.
    do 2 (destruct i as [|i]; [lia|]). reflexivity.
  - rewrite !in_tab_app, (in_tab_beyond i 0) by lia.
    do 2 (destruct i as [|i]; [lia|]). reflexivity.
Qed.

Lemma layout_of_single_modes_witness :
  in_tab 3 (trace (render mode_flights sample_result)) = [] /\
  in_tab 3 (trace (render mode_hotels sample_result)) = [].
Proof.
  apply (layout_of_single_modes sample_result). lia.
Defined.

Lemma layout_of_complete_mode_witness :
  in_tab 4 (trace (render mode_complete sample_result)) = [].
Proof.
  apply (layout_of_complete_mode sample_result). lia.
Defined.

(** X12: what "Flights Only" draws depends on the flights and the flight
    analysis of the result alone, and what "Hotels Only" draws on its
    hotels and hotel analysis alone. *)
Theorem single_modes_read_their_domain (r r' : SearchResult.t) :
  (SearchResult.flights r = SearchResult.flights r' ->
   SearchResult.ai_flight_recommendation r = SearchResult.ai_flight_recommendation r' ->
   render mode_flights r = render mode_flights r') /\
  (SearchResult.hotels r = SearchResult.hotels r' ->
   SearchResult.ai_hotel_recommendation r = SearchResult.ai_hotel_recommendation r' ->
   render mode_hotels r = render mode_hotels r').
Proof.
  split; intros Hl Ha.
  - rewrite !render_flights, !flights_panel_eq, Hl, Ha. reflexivity.
  - rewrite !render_hotels, !hotels_panel_eq, Hl, Ha. reflexivity.
Qed.

Lemma single_modes_read_their_domain_witness :
  render mode_flights sample_result =
  render mode_flights
    (SearchResult.make (SearchResult.flights sample_result) [] "Take Delta." "" None).
Proof.
  apply (single_modes_read_their_domain sample_result
           (SearchResult.make (SearchResult.flights sample_result) [] "Take Delta." "" None));
    reflexivity.
Defined.

(** X13: a submission that reaches the backend shows the spinner first, then
    makes its call, and only then draws what follows from the answer:
    nothing is drawn of a result before the call, and no second call
    or spinner follows. *)
Theorem call_precedes_results (B : Backend) (w : Widgets) (c : call) :
  In c (calls (trace (script B w))) ->
  exists rest,
    trace (script B w) = Draw [] (spinner msg_spinner) :: Call c :: rest /\
    calls rest = [] /\
    ~ In (Draw [] (spinner msg_spinner)) rest /\
    (forall v, invoke B c = Ok v -> drawn is_error rest = []).
Proof.
  intros Hin. apply script_called in Hin as (Hs & Ho & Hd & Hc).
  unfold script. rewrite Hs, (on_submit_valid B w Ho Hd), Hc.
  destruct (invoke B c) as [[| |r]|e].
  - exists []. repeat split; auto.
  - exists []. repeat split; auto.
  - exists (trace (render (search_mode w) r)).
    pose proof (entry_point_some w c Hc) as Hm.
    split; [reflexivity|]. split; [apply (render_ok _ r Hm)|].
    assert (Hnone : forall p, p (tabs tabs_flights) = false ->
              p (tabs tabs_hotels) = false -> p (tabs tabs_complete) = false ->
              above_panels p ->
              p (expander "✈️ AI Flight Analysis") = false ->
              p (expander "🏨 AI Hotel Analysis") = false ->
              (forall b, p (markdown b) = false) ->
              (forall b, p (subheader b) = false) ->
              (forall a b c, p (download_button a b c) = false) ->
              drawn p (trace (render (search_mode w) r)) = []).
    { intros p T1 T2 T3 Hp E1 E2 Hmd Hsub Hdl.
      pose proof (drawn_flights_panel p r Hp) as Hf.
      pose proof (drawn_hotels_panel p r Hp) as Hh.
      apply mode_cases in Hm as [-> | [-> | ->]];
        [rewrite render_complete | rewrite render_flights | rewrite render_hotels];
        unfold trace in *; cbn [fst];
        rewrite drawn_skip, !drawn_app, !drawn_enter, ?Hf, ?Hh by assumption;
        cbn [app]; rewrite ?drawn_skip by auto; reflexivity. }
    split.
    + intros Hin.
      assert (H : In (spinner msg_spinner)
                    (drawn (fun e => match e with spinner _ => true | _ => false end)
                       (trace (render (search_mode w) r)))).
      { unfold drawn. apply filter_In. split; [|reflexivity].
        apply in_map_iff. exists ([], spinner msg_spinner). split; [reflexivity|].
        clear - Hin. induction (trace (render (search_mode w) r)) as [|[p e|c'] t IH];
          [destruct Hin | |]; simpl.
        - destruct Hin as [Heq | Hin]; [left; now inversion Heq | right; auto].
        - destruct Hin as [Heq | Hin]; [discriminate Heq | auto]. }
      rewrite Hnone in H; try reflexivity; [destruct H | repeat split].
    + intros v _. apply Hnone; try reflexivity. repeat split.
  - eexists. split; [reflexivity|]. split; [reflexivity|]. split.
    + intros [H | []]; discriminate H.
    + intros v Hv. discriminate Hv.
Qed.

Lemma call_precedes_results_witness :
  exists rest,
    trace (script (answering (Ok (Result sample_result)))
             (submitted mode_complete "ATL" "LAX" true "")) =
      Draw [] (spinner msg_spinner) ::
      Call (Call_complete_travel_search
              (flight_req (submitted mode_complete "ATL" "LAX" true ""))
              (hotel_req (submitted mode_complete "ATL" "LAX" true ""))) :: rest /\
    calls rest = [] /\
    ~ In (Draw [] (spinner msg_spinner)) rest /\
    (forall v, invoke (answering (Ok (Result sample_result)))
                 (Call_complete_travel_search
                    (flight_req (submitted mode_complete "ATL" "LAX" true ""))
                    (hotel_req (submitted mode_complete "ATL" "LAX" true ""))) = Ok v ->
               drawn is_error rest = []).
Proof.
  apply (call_precedes_results (answering (Ok (Result sample_result)))
           (submitted mode_complete "ATL" "LAX" true "")).
  left; reflexivity.
Defined.

(** X14: the search calls the backend for the three mode strings that the
    radio offers and for no other: with any other mode string a
    submission that passes the presence check shows the spinner and
    does nothing more, without an error. *)
Theorem dispatch_iff_mode_offered (B : Backend) (w : Widgets) :
  submit_button w = true ->
  origin w <> EmptyString -> destination w <> EmptyString ->
  (calls (trace (script B w)) <> [] <-> In (search_mode w) search_modes) /\
  (~ In (search_mode w) search_modes ->
   script B w = ([Draw [] (spinner msg_spinner)], Ok tt)).
Proof.
  intros Hs Ho Hd.
  assert (Hnone : ~ In (search_mode w) search_modes -> entry_point w = None).
  { intros Hnot. destruct (entry_point w) as [c|] eqn:Hc; [|reflexivity].
    exfalso. apply Hnot. now apply (entry_point_some w c). }
  split.
  - rewrite script_calls, Hs.
    apply PyStrFacts.truthy_true in Ho, Hd. rewrite Ho, Hd. cbn [andb].
    split.
    + intros Hcalls. destruct (entry_point w) as [c|] eqn:Hc; [|congruence].
      now apply (entry_point_some w c).
    + intros Hm. destruct (entry_point_modes w) as (Hc & Hf & Hh).
      apply mode_cases in Hm as [H | [H | H]];
        [rewrite (Hc H) | rewrite (Hf H) | rewrite (Hh H)]; discriminate.
  - intros Hnot. unfold script.
    rewrite Hs, (on_submit_valid B w Ho Hd), (Hnone Hnot). reflexivity.
Qed.

Lemma dispatch_iff_mode_offered_witness :
  script (answering (Ok (Result sample_result)))
         (submitted "Cars Only" "ATL" "LAX" true "") =
    ([Draw [] (spinner msg_spinner)], Ok tt).
Proof.
  apply (dispatch_iff_mode_offered (answering (Ok (Result sample_result)))
           (submitted "Cars Only" "ATL" "LAX" true ""));
    [reflexivity | discriminate | discriminate |].
  intros [H | [H | [H | []]]]; discriminate H.
Defined.

End PlannerRuns.

(** ** The start of the planner script *)

Module AppFacts.
Import Script Planner PlannerFacts App.

(** X15: after the start of the script each of the two keys has the value
    of the secret of its name when there is one, whatever the
    environment held, and the value it had otherwise; no other
    variable of the environment is changed. *)
Theorem secrets_override_environment (secrets environ : mapping) (name : string) :
  (name = "GOOGLE_API_KEY" \/ name = "SERP_API_KEY" ->
   load_secrets secrets environ name =
     match secrets name with
     | Some value => Some value
     | None => environ name
     end) /\
  (name <> "GOOGLE_API_KEY" -> name <> "SERP_API_KEY" ->
   load_secrets secrets environ name = environ name).
Proof.
  unfold load_secrets, copy_secret, setitem. split.
  - intros [-> | ->].
    + destruct (secrets "SERP_API_KEY"), (secrets "GOOGLE_API_KEY"); reflexivity.
    + destruct (secrets "SERP_API_KEY"), (secrets "GOOGLE_API_KEY"); reflexivity.
  - intros Hg Hs. apply String.eqb_neq in Hg, Hs.
    destruct (secrets "SERP_API_KEY"), (secrets "GOOGLE_API_KEY");
      rewrite ?Hg, ?Hs; reflexivity.
Qed.

Lemma secrets_override_environment_witness :
  load_secrets sample_secrets sample_environ "GOOGLE_API_KEY" = Some "from-secrets" /\
  load_secrets sample_secrets sample_environ "SERP_API_KEY" = Some "serp-from-env" /\
  load_secrets sample_secrets sample_environ "HOME" = Some "/home/app".
Proof.
  split; [|split].
  - apply (proj1 (secrets_override_environment sample_secrets sample_environ "GOOGLE_API_KEY")).
    left; reflexivity.
  - apply (proj1 (secrets_override_environment sample_secrets sample_environ "SERP_API_KEY")).
    right; reflexivity.
  - apply (proj2 (secrets_override_environment sample_secrets sample_environ "HOME"));
      discriminate.
Defined.


(** X17: the hotel part of the form: with the checkbox ticked it says which
    flight destination the hotel search will use, the one that becomes
    the location of the hotel request, and has no field for a hotel
    location; with the checkbox cleared it has that field, empty by
    default, and says nothing. *)
Theorem hotel_location_field_follows_checkbox (days_from_now : nat -> date)
    (w : Widgets) :
  (use_flight_destination w = true ->
   In ([InForm; Col 1],
       InfoBox ("Using flight destination (" ++
                HotelRequest.location (hotel_req w) ++ ") for hotel search"))
      (page days_from_now w) /\
   forall path value,
     ~ In (path, TextInput "Hotel Location" value) (page days_from_now w)) /\
  (use_flight_destination w = false ->
   In ([InForm; Col 1], TextInput "Hotel Location" "") (page days_from_now w) /\
   forall path body, ~ In (path, InfoBox body) (page days_from_now w)).
Proof.
  unfold page, hotel_req, location. cbn [HotelRequest.location].
  split; intros Ht; rewrite Ht; (split; [cbn [In]; tauto|]);
    intros path x Hin; cbn [In] in Hin;
    repeat (destruct Hin as [Hin|Hin]; [discriminate Hin|]); exact Hin.
Qed.

Lemma hotel_location_field_follows_checkbox_witness :
  In ([InForm; Col 1], InfoBox "Using flight destination (LAX) for hotel search")
     (page sample_calendar (submitted mode_complete "ATL" "LAX" true "")) /\
  In ([InForm; Col 1], TextInput "Hotel Location" "")
     (page sample_calendar (submitted mode_complete "ATL" "LAX" false "")).
Proof.
  split.
  - apply (proj1 (hotel_location_field_follows_checkbox sample_calendar
                    (submitted mode_complete "ATL" "LAX" true ""))).
    reflexivity.
  - apply (proj2 (hotel_location_field_follows_checkbox sample_calendar
                    (submitted mode_complete "ATL" "LAX" false ""))).
    reflexivity.
Defined.

(** X18: the modes that the radio of the sidebar offers are exactly the mode
    strings for which the search invokes an entry point: none of the
    options falls through the search, and the search knows no mode that
    is not offered. *)
Theorem offered_modes_are_the_dispatched_ones (days_from_now : nat -> date)
    (w : Widgets) (path : list place) (label : string) (options : list string) :
  In (path, Radio label options) (page days_from_now w) ->
  label = "Search Mode" /\
  forall w', In (search_mode w') options <-> entry_point w' <> None.
Proof.
  intros Hin. unfold page in Hin. cbn [In] in Hin.
  assert (Hradio : label = "Search Mode" /\ options = search_modes).
  { destruct (use_flight_destination w);
      repeat (destruct Hin as [Hin|Hin];
              [first [discriminate Hin | injection Hin as _ <- <-; now split]|]);
      destruct Hin. }
  destruct Hradio as [-> ->]. split; [reflexivity|].
  intros w'. split.
  - intros Hm. destruct (entry_point_modes w') as (Hc & Hf & Hh).
    apply mode_cases in Hm as [H | [H | H]];
      [rewrite (Hc H) | rewrite (Hf H) | rewrite (Hh H)]; discriminate.
  - intros Hsome. destruct (entry_point w') as [c|] eqn:Hc; [|congruence].
    now apply (entry_point_some w' c).
Qed.

Lemma offered_modes_are_the_dispatched_ones_witness :
  In (search_mode (submitted "Hotels Only" "ATL" "LAX" true ""))
     ["Complete (Flights + Hotels + Itinerary)"; "Flights Only"; "Hotels Only"] <->
  entry_point (submitted "Hotels Only" "ATL" "LAX" true "") <> None.
Proof.
  apply (proj2 (offered_modes_are_the_dispatched_ones sample_calendar
                  (submitted mode_complete "ATL" "LAX" true "") [Sidebar] "Search Mode"
                  ["Complete (Flights + Hotels + Itinerary)"; "Flights Only"; "Hotels Only"]
                  (or_intror (or_intror (or_introl eq_refl))))
               (submitted "Hotels Only" "ATL" "LAX" true "")).
Defined.

End AppFacts.
